(** * htmlcreator: the [HTMLDocument] builder of [htmlcreator/document.py]

    A shallow embedding of the class [HTMLDocument] and the properties its
    specification states about it.  Text is [string]; binary data is
    [list byte]; a method is a function from the document to an outcome and
    the document it leaves behind, so that a mutation made before an
    exception is raised stays visible, as it does in Python. *)

From Stdlib Require Import Strings.String Strings.Ascii Strings.Byte.
From Stdlib Require Import List ZArith NArith Lia Bool DecimalString.
Import ListNotations.

Local Open Scope string_scope.

(** ** Strings *)

Module Str.

(** The two characters a Python literal writes with an escape. *)
Definition nl : string := String "010"%char EmptyString.
Definition dq : string := String "034"%char EmptyString.

(** [a] is an unbroken prefix of [b]. *)
Definition is_prefix (a b : string) : Prop := exists suf, b = a ++ suf.

(** Substring search, used to say that an attribute is absent from a tag. *)
Fixpoint contains (needle hay : string) : bool :=
  String.prefix needle hay
  || match hay with
     | EmptyString => false
     | String _ rest => contains needle rest
     end.

End Str.

Import Str.

(** ** Base64, as [base64.b64encode] produces it (RFC 4648, standard
    alphabet, [=] padding) *)

Module Base64.

Local Open Scope N_scope.

Definition alphabet : string :=
  "ABCDEFGHIJKLMNOPQRSTUVWXYZabcdefghijklmnopqrstuvwxyz0123456789+/".

Definition pad : ascii := "="%char.

(** The character of a 6-bit group. *)
Definition b64char (n : N) : ascii :=
  match String.get (N.to_nat n) alphabet with
  | Some c => c
  | None => pad
  end.

Fixpoint index_of (c : ascii) (s : string) : option N :=
  match s with
  | EmptyString => None
  | String x rest =>
      if Ascii.eqb c x then Some 0
      else option_map N.succ (index_of c rest)
  end.

(** The 6-bit group of a character of the alphabet. *)
Definition b64val (c : ascii) : option N := index_of c alphabet.

Definition chars (l : list ascii) (rest : string) : string :=
  fold_right String rest l.

(** Three octets make four 6-bit groups. *)
Definition sextets3 (a b c : N) : N * N * N * N :=
  (a / 4, (a mod 4) * 16 + b / 16, (b mod 16) * 4 + c / 64, c mod 64).

Fixpoint b64encode (bs : list byte) : string :=
  match bs with
  | [] => EmptyString
  | [a] =>
      let '(s1, s2, _, _) := sextets3 (Byte.to_N a) 0 0 in
      chars [b64char s1; b64char s2; pad; pad] EmptyString
  | [a; b] =>
      let '(s1, s2, s3, _) := sextets3 (Byte.to_N a) (Byte.to_N b) 0 in
      chars [b64char s1; b64char s2; b64char s3; pad] EmptyString
  | a :: b :: c :: rest =>
      let '(s1, s2, s3, s4) :=
        sextets3 (Byte.to_N a) (Byte.to_N b) (Byte.to_N c) in
      chars [b64char s1; b64char s2; b64char s3; b64char s4] (b64encode rest)
  end.

Definition bind {A B} (o : option A) (f : A -> option B) : option B :=
  match o with
  | Some a => f a
  | None => None
  end.


(** [base64.b64decode] with its default [validate=False] first discards
    every character that is neither of the alphabet nor the padding. *)
Definition is_b64_char (c : ascii) : bool :=
  match b64val c with
  | Some _ => true
  | None => Ascii.eqb c pad
  end.



End Base64.

(** ** Python values, exceptions and the method monad *)

(** Element types of a numpy array. *)
Inductive dtype : Type :=
  | uint8 | int8 | uint16 | int16 | int32 | int64 | float32 | float64
  | bool_.

Definition dtype_eqb (a b : dtype) : bool :=
  match a, b with
  | uint8, uint8 | int8, int8 | uint16, uint16 | int16, int16
  | int32, int32 | int64, int64 | float32, float32 | float64, float64
  | bool_, bool_ => true
  | _, _ => false
  end.

Definition dtype_name (t : dtype) : string :=
  match t with
  | uint8 => "uint8" | int8 => "int8" | uint16 => "uint16"
  | int16 => "int16" | int32 => "int32" | int64 => "int64"
  | float32 => "float32" | float64 => "float64" | bool_ => "bool"
  end.

(** [np.ndarray]: element type, shape and the raw buffer. *)
Record ndarray : Type := {
  nd_dtype : dtype;
  nd_shape : list nat;
  nd_data : list byte
}.

Definition ndim (a : ndarray) : nat := List.length (nd_shape a).

(** Exceptions, by class.  A collaborator may raise any of them. *)
Inductive exn : Type :=
  | TypeError (msg : string)
  | RuntimeError (msg : string)
  | OSError (msg : string)
  | OtherError (cls msg : string).

Inductive exn_class : Type :=
  | CTypeError | CRuntimeError | COSError | COther (cls : string).

Definition class_of (e : exn) : exn_class :=
  match e with
  | TypeError _ => CTypeError
  | RuntimeError _ => CRuntimeError
  | OSError _ => COSError
  | OtherError c _ => COther c
  end.

Definition result (A : Type) : Type := (exn + A)%type.

(** [height] and [width] are [Optional[Union[int, str]]]. *)
Inductive dim : Type :=
  | DInt (z : Z)
  | DStr (s : string).

(** The value of [include_plotlyjs] handed to [plotly.io.to_html]: a boolean
    or the string ['cdn']. *)
Inductive plotlyjs : Type :=
  | JsBool (b : bool)
  | JsCdn.

(** Truth value testing and formatting, as [if x:] and [f'{x}'] do them. *)
Definition truthy_str (o : option string) : bool :=
  match o with
  | Some s => negb (String.eqb s "")
  | None => false
  end.

Definition truthy_dim (o : option dim) : bool :=
  match o with
  | Some (DInt z) => negb (Z.eqb z 0)
  | Some (DStr s) => negb (String.eqb s "")
  | None => false
  end.

Definition str_of_int (z : Z) : string := NilZero.string_of_int (Z.to_int z).

Definition format_str (o : option string) : string :=
  match o with
  | Some s => s
  | None => "None"
  end.

Definition format_dim (o : option dim) : string :=
  match o with
  | Some (DInt z) => str_of_int z
  | Some (DStr s) => s
  | None => "None"
  end.

(** ** PNG, as far as its container goes *)

Module Png.

Local Open Scope N_scope.

Definition signature : list byte :=
  [x89; x50; x4e; x47; x0d; x0a; x1a; x0a]%byte.

Definition byte_of (n : N) : byte :=
  match Byte.of_N (n mod 256) with
  | Some b => b
  | None => x00%byte
  end.

Definition be32 (n : N) : list byte :=
  [byte_of (n / 16777216); byte_of (n / 65536); byte_of (n / 256); byte_of n].

Definition le16 (n : N) : list byte := [byte_of n; byte_of (n / 256)].

Definition of_be32 (a b c d : byte) : N :=
  ((Byte.to_N a * 256 + Byte.to_N b) * 256 + Byte.to_N c) * 256 + Byte.to_N d.

Fixpoint bytes_eqb (a b : list byte) : bool :=
  match a, b with
  | [], [] => true
  | x :: a', y :: b' => Byte.eqb x y && bytes_eqb a' b'
  | _, _ => false
  end.

(** The check sum of a chunk: CRC-32 with the polynomial [0xEDB88320]. *)
Definition crc_step (c : N) : N :=
  if N.testbit c 0 then N.lxor (N.shiftr c 1) 0xEDB88320 else N.shiftr c 1.

Definition crc_byte (c : N) (b : byte) : N :=
  Nat.iter 8 crc_step (N.lxor c (Byte.to_N b)).

Definition crc32 (bs : list byte) : N :=
  N.lxor (fold_left crc_byte bs 0xFFFFFFFF) 0xFFFFFFFF.

(** The check sum of the compressed stream: Adler-32. *)
Definition adler_byte (s : N * N) (b : byte) : N * N :=
  let a := (fst s + Byte.to_N b) mod 65521 in
  (a, (snd s + a) mod 65521).

Definition adler32 (bs : list byte) : N :=
  let s := fold_left adler_byte bs (1, 0) in
  snd s * 65536 + fst s.

Definition chunk (type data : list byte) : list byte :=
  be32 (N.of_nat (List.length data)) ++ type ++ data
  ++ be32 (crc32 (type ++ data)).

Definition IHDR : list byte := ["I"; "H"; "D"; "R"]%byte.
Definition IDAT : list byte := ["I"; "D"; "A"; "T"]%byte.
Definition IEND : list byte := ["I"; "E"; "N"; "D"]%byte.

(** *** Reading *)

(** The chunks of a stream, each with its check sum verified. *)
Fixpoint chunks (fuel : nat) (bs : list byte)
    : option (list (list byte * list byte)) :=
  match fuel with
  | O => None
  | S fuel' =>
      match bs with
      | [] => Some []
      | l1 :: l2 :: l3 :: l4 :: t1 :: t2 :: t3 :: t4 :: rest =>
          let len := N.to_nat (of_be32 l1 l2 l3 l4) in
          let type := [t1; t2; t3; t4] in
          let data := firstn len rest in
          match skipn len rest with
          | c1 :: c2 :: c3 :: c4 :: rest' =>
              if Nat.eqb (List.length data) len
                 && N.eqb (of_be32 c1 c2 c3 c4) (crc32 (type ++ data))
              then option_map (cons (type, data)) (chunks fuel' rest')
              else None
          | _ => None
          end
      | _ => None
      end
  end.

Definition ends_with_iend (cs : list (list byte * list byte)) : bool :=
  match rev cs with
  | (t, []) :: _ => bytes_eqb t IEND
  | _ => false
  end.

Definition has_idat (cs : list (list byte * list byte)) : bool :=
  existsb (fun c => bytes_eqb (fst c) IDAT) cs.

(** The size, width first, that a PNG stream declares: the signature, then
    chunks with good check sums, the header first, image data somewhere, the
    end chunk last.  The image data is not decompressed. *)
Definition image_size (bs : list byte) : option (nat * nat) :=
  if bytes_eqb (firstn 8 bs) signature then
    match chunks (S (List.length bs)) (skipn 8 bs) with
    | Some ((t, [w1; w2; w3; w4; h1; h2; h3; h4; _; _; _; _; _]) :: rest) =>
        if bytes_eqb t IHDR && has_idat rest && ends_with_iend rest
        then Some (N.to_nat (of_be32 w1 w2 w3 w4),
                   N.to_nat (of_be32 h1 h2 h3 h4))
        else None
    | _ => None
    end
  else None.

(** *** Writing, the plain way: image data stored, not compressed *)

Fixpoint scanlines (row_len rows : nat) (data : list byte) : list byte :=
  match rows with
  | O => []
  | S rows' =>
      x00%byte :: firstn row_len data
      ++ scanlines row_len rows' (skipn row_len data)
  end.

Definition zlib_stored (raw : list byte) : list byte :=
  [x78; x01; x01]%byte
  ++ le16 (N.of_nat (List.length raw))
  ++ le16 (65535 - N.of_nat (List.length raw))
  ++ raw ++ be32 (adler32 raw).

Definition stream (rows cols channels : nat) (color_type : N)
    (data : list byte) : list byte :=
  signature
  ++ chunk IHDR
       (be32 (N.of_nat cols) ++ be32 (N.of_nat rows)
        ++ [x08%byte; byte_of color_type; x00%byte; x00%byte; x00%byte])
  ++ chunk IDAT (zlib_stored (scanlines (cols * channels) rows data))
  ++ chunk IEND [].

(** A PNG encoder for [uint8] arrays of rows by columns, grey, or with 3
    or 4 channels, small enough for one stored block. *)
Definition encode (a : ndarray) : result (list byte) :=
  let fits rows cols channels :=
    Nat.eqb (List.length (nd_data a)) (rows * cols * channels)
    && N.leb (N.of_nat (rows * S (cols * channels))) 65535 in
  match nd_shape a with
  | [rows; cols] =>
      if fits rows cols 1%nat
      then inr (stream rows cols 1 0 (nd_data a))
      else inl (OtherError "ValueError" "not enough image data")
  | [rows; cols; 3%nat] =>
      if fits rows cols 3%nat
      then inr (stream rows cols 3 2 (nd_data a))
      else inl (OtherError "ValueError" "not enough image data")
  | [rows; cols; 4%nat] =>
      if fits rows cols 4%nat
      then inr (stream rows cols 4 6 (nd_data a))
      else inl (OtherError "ValueError" "not enough image data")
  | _ => inl (TypeError "Cannot handle this data type")
  end.

End Png.

(** ** The document *)

Record Document : Type := {
  style : string;
  title : string;
  head : string;
  body : string;
  _is_plotlyjs_included : bool
}.

(** A method: the outcome and the document as the call leaves it. *)
Definition M (A : Type) : Type := Document -> result A * Document.

Definition ret {A} (a : A) : M A := fun d => (inr a, d).
Definition raise {A} (e : exn) : M A := fun d => (inl e, d).
Definition lift {A} (r : result A) : M A := fun d => (r, d).
Definition bind {A B} (m : M A) (k : A -> M B) : M B :=
  fun d =>
    match m d with
    | (inl e, d') => (inl e, d')
    | (inr a, d') => k a d'
    end.
Definition gets {A} (f : Document -> A) : M A := fun d => (inr (f d), d).
Definition modify (f : Document -> Document) : M unit :=
  fun d => (inr tt, f d).

Notation "x <- m ;; k" := (bind m (fun x => k))
  (at level 61, m at next level, right associativity).
Notation "m ;;; k" := (bind m (fun _ => k))
  (at level 61, right associativity).

Definition with_style (s : string) (d : Document) : Document :=
  {| style := s; title := title d; head := head d; body := body d;
     _is_plotlyjs_included := _is_plotlyjs_included d |}.

Definition with_title (t : string) (d : Document) : Document :=
  {| style := style d; title := t; head := head d; body := body d;
     _is_plotlyjs_included := _is_plotlyjs_included d |}.

Definition with_body (b : string) (d : Document) : Document :=
  {| style := style d; title := title d; head := head d; body := b;
     _is_plotlyjs_included := _is_plotlyjs_included d |}.

Definition with_plotlyjs_included (f : bool) (d : Document) : Document :=
  {| style := style d; title := title d; head := head d; body := body d;
     _is_plotlyjs_included := f |}.

(** [self.body += fragment] *)
Definition append_body (fragment : string) : M unit :=
  modify (fun d => with_body (body d ++ fragment) d).

(** The objects of pandas, PIL and plotly are opaque: a value of these
    types names an object, and the collaborators of a [World] say what the
    libraries make of it. *)
Inductive DataFrame : Type := DataFrameAt (addr : N).
Inductive PILImage : Type := PILImageAt (addr : N).
Inductive Figure : Type := FigureAt (addr : N).

(** What a caller may pass where the code tests the type at run time. *)
Inductive value : Type :=
  | VNone
  | VInt (z : Z)
  | VStr (s : string)
  | VPath (p : string)
  | VNdarray (a : ndarray)
  | VImage (i : PILImage)
  | VDataFrame (df : DataFrame)
  | VFigure (f : Figure)
  | VObject (cls : string).

(** [type(v)] as an f-string prints it. *)
Definition class_repr (name : string) : string := "<class '" ++ name ++ "'>".

Definition type_repr (v : value) : string :=
  class_repr
    match v with
    | VNone => "NoneType"
    | VInt _ => "int"
    | VStr _ => "str"
    | VPath _ => "pathlib.PosixPath"
    | VNdarray _ => "numpy.ndarray"
    | VImage _ => "PIL.Image.Image"
    | VDataFrame _ => "pandas.core.frame.DataFrame"
    | VFigure _ => "plotly.graph_objs._figure.Figure"
    | VObject cls => cls
    end.

(** The collaborators and the file system, as one call sees them. *)
Record World : Type := {
  (** [df.to_html()] *)
  df_to_html : DataFrame -> result string;
  (** [Image.fromarray(image).save(buff, format='PNG'); buff.getvalue()] *)
  png_of_array : ndarray -> result (list byte);
  (** [image.save(buff, format='PNG'); buff.getvalue()] *)
  png_of_image : PILImage -> result (list byte);
  (** [open(path, 'rb').read()] *)
  read_bytes : string -> result (list byte);
  (** [open(path).read()] *)
  read_text : string -> result string;
  (** [open(path, 'w')] then [f.write(text)] *)
  write_text : string -> string -> result unit;
  (** [plotly.io.to_html(fig=fig, full_html=False, include_plotlyjs=mode)] *)
  plotly_to_html : Figure -> plotlyjs -> result string;
  (** the resolved path of [style.css] beside the module *)
  style_filepath : string
}.

(** *** The methods of [HTMLDocument] *)

Definition __str__ (d : Document) : string :=
  "<!DOCTYPE html>" ++ nl
  ++ "<html lang=" ++ dq ++ "en" ++ dq ++ ">" ++ nl
  ++ "<head>" ++ nl
  ++ "<meta charset=" ++ dq ++ "UTF-8" ++ dq ++ ">" ++ nl
  ++ "<title>" ++ title d ++ "</title>" ++ nl
  ++ "<style type=" ++ dq ++ "text/css" ++ dq ++ ">" ++ nl
  ++ style d ++ "</style>" ++ nl
  ++ head d
  ++ "</head>" ++ nl
  ++ "<body>" ++ nl
  ++ body d
  ++ "</body>" ++ nl
  ++ "</html>" ++ nl.

(** [level] defaults to ['h2'] and [align] to ['left']. *)
Definition add_header (header level align : string) : M unit :=
  append_body
    ("<" ++ level ++ " style=" ++ dq ++ "text-align: " ++ align ++ dq ++ ">"
     ++ header
     ++ "</" ++ level ++ ">" ++ nl).

(** [size] defaults to ['16px'], [indent] to ['0'], [align] to ['left']. *)
Definition add_text (text size indent align : string) : M unit :=
  append_body
    ("<p style=" ++ dq ++ "font-size:" ++ size ++ "; text-indent: " ++ indent
     ++ "; text-align: " ++ align ++ dq ++ ">"
     ++ text
     ++ "</p>" ++ nl).

Definition add_line_break : M unit :=
  append_body ("<br>" ++ nl).

Definition add_page_break : M unit :=
  append_body
    ("<p style=" ++ dq ++ "page-break-after: always;" ++ dq ++ ">&nbsp;</p>"
     ++ nl).

Definition add_table (w : World) (df : value) : M unit :=
  match df with
  | VDataFrame t =>
      html <- lift (df_to_html w t) ;;
      append_body
        ("<div class=" ++ dq ++ "pandas-dataframe" ++ dq ++ ">" ++ nl
         ++ html ++ nl
         ++ "</div>" ++ nl)
  | _ =>
      raise (TypeError
        ("df is of type " ++ type_repr df ++ ", but it should be of type "
         ++ class_repr "pandas.core.frame.DataFrame" ++ "."))
  end.

Definition _add_image_tag (src : string) (title : option string)
    (height width : option dim) (pixelated : bool) : M unit :=
  let image_tag := "<img src=" ++ dq ++ src ++ dq in
  let image_tag :=
    if truthy_str title
    then image_tag ++ (" title=" ++ dq ++ format_str title ++ dq)
    else image_tag in
  let image_tag :=
    if truthy_dim height
    then image_tag ++ (" height=" ++ format_dim height)
    else image_tag in
  let image_tag :=
    if truthy_dim width
    then image_tag ++ (" width=" ++ format_dim width)
    else image_tag in
  let image_tag :=
    image_tag ++ (" style=" ++ dq ++ "border:1px solid #021a40; margin: 3px 3px")
  in
  let image_tag :=
    if pixelated
    then image_tag ++ "; image-rendering: pixelated"
    else image_tag in
  let image_tag := image_tag ++ (dq ++ ">" ++ nl) in
  append_body image_tag.

(** [_encode_image] reads [self] nowhere; its result depends on the
    argument and the collaborators only. *)
Definition _encode_image (w : World) (image : value) : result string :=
  match image with
  | VNdarray a =>
      if negb (dtype_eqb (nd_dtype a) uint8) then
        inl (RuntimeError
          ("image.dtype is " ++ dtype_name (nd_dtype a)
           ++ ", but it should be uint8."))
      else if negb (Nat.eqb (ndim a) 2 || Nat.eqb (ndim a) 3) then
        inl (RuntimeError
          ("image.ndim is " ++ str_of_int (Z.of_nat (ndim a))
           ++ ", but it should be 2 or 3."))
      else
        match png_of_array w a with
        | inl e => inl e
        | inr buff => inr (Base64.b64encode buff)
        end
  | VImage i =>
      match png_of_image w i with
      | inl e => inl e
      | inr buff => inr (Base64.b64encode buff)
      end
  | VPath p =>
      match read_bytes w p with
      | inl e => inl e
      | inr raw => inr (Base64.b64encode raw)
      end
  | VStr p =>
      match read_bytes w p with
      | inl e => inl e
      | inr raw => inr (Base64.b64encode raw)
      end
  | _ =>
      inl (TypeError
        ("image is of type " ++ type_repr image ++ ", but it should be one of: "
         ++ class_repr "numpy.ndarray" ++ ", " ++ class_repr "PIL.Image.Image"
         ++ ", " ++ class_repr "pathlib.Path" ++ " or " ++ class_repr "str"
         ++ "."))
  end.

Definition add_image (w : World) (image : value) (title : option string)
    (height width : option dim) (pixelated : bool) : M unit :=
  image_encoded_str <- lift (_encode_image w image) ;;
  let image_src := "data:image/png;base64, " ++ image_encoded_str in
  _add_image_tag image_src title height width pixelated.

Definition add_image_link (image_link : value) (title : option string)
    (height width : option dim) (pixelated : bool) : M unit :=
  match image_link with
  | VPath p => _add_image_tag p title height width pixelated
  | VStr s => _add_image_tag s title height width pixelated
  | _ =>
      raise (TypeError
        ("image_link is of type " ++ type_repr image_link
         ++ ", but it should be " ++ class_repr "pathlib.Path" ++ " or "
         ++ class_repr "str" ++ "."))
  end.

(** Lines 143 to 148 of [add_plotly_figure]: the value of
    [include_plotlyjs] after the three-way test, and the flag. *)
Definition plotlyjs_mode (include_plotlyjs : bool) : M plotlyjs :=
  included <- gets _is_plotlyjs_included ;;
  if included then ret (JsBool false)
  else if include_plotlyjs then
    modify (with_plotlyjs_included true) ;;;
    ret (JsBool include_plotlyjs)
  else ret JsCdn.

(** [include_plotlyjs] defaults to [True]. *)
Definition add_plotly_figure (w : World) (fig : value)
    (include_plotlyjs : bool) : M unit :=
  match fig with
  | VFigure f =>
      mode <- plotlyjs_mode include_plotlyjs ;;
      plotly_figure_html <- lift (plotly_to_html w f mode) ;;
      append_body
        ("<div class=" ++ dq ++ "plotly-figure" ++ dq ++ ">" ++ nl
         ++ plotly_figure_html ++ nl
         ++ "</div>" ++ nl)
  | _ =>
      raise (TypeError
        ("fig is of type " ++ type_repr fig ++ ", but it should be "
         ++ class_repr "plotly.graph_objs._figure.Figure" ++ "."))
  end.

Definition set_style (s : string) : M unit := modify (with_style s).

Definition set_title (t : string) : M unit := modify (with_title t).

Definition write (w : World) (filepath : string) : M unit :=
  text <- gets __str__ ;;
  lift (write_text w filepath text).

Definition _set_default_style (w : World) : M unit :=
  css <- lift (read_text w (style_filepath w)) ;;
  set_style css.

(** [__name__] of the class itself. *)
Definition HTMLDocument_name : string := "HTMLDocument".

(** The constructor: the document, or the exception that left none.
    [class_name] is [self.__class__.__name__]: [HTMLDocument_name] for an
    instance of the class itself, the name of the subclass for an instance
    of a subclass, which runs the same [__init__]. *)
Definition __init__ (class_name : string) (w : World) : result Document :=
  let self :=
    {| style := ""; title := class_name; head := ""; body := "";
       _is_plotlyjs_included := false |} in
  match _set_default_style w self with
  | (inl e, _) => inl e
  | (inr _, self') => inr self'
  end.

(** *** Calls and the life of a document *)

Inductive call : Type :=
  | Add_header (header level align : string)
  | Add_text (text size indent align : string)
  | Add_line_break
  | Add_page_break
  | Add_table (df : value)
  | Add_image (image : value) (title : option string)
      (height width : option dim) (pixelated : bool)
  | Add_image_link (image_link : value) (title : option string)
      (height width : option dim) (pixelated : bool)
  | Add_plotly_figure (fig : value) (include_plotlyjs : bool)
  | Set_style (css : string)
  | Set_title (text : string)
  | Write (filepath : string)
  | Str
  | Add_image_tag (src : string) (title : option string)
      (height width : option dim) (pixelated : bool)
  | Encode_image (image : value)
  | Set_default_style.

(** The eight operations that append to the body. *)
Definition is_append (c : call) : bool :=
  match c with
  | Add_header _ _ _ | Add_text _ _ _ _ | Add_line_break | Add_page_break
  | Add_table _ | Add_image _ _ _ _ _ | Add_image_link _ _ _ _ _
  | Add_plotly_figure _ _ => true
  | _ => false
  end.

Definition run (w : World) (c : call) : M unit :=
  match c with
  | Add_header h l a => add_header h l a
  | Add_text t s i a => add_text t s i a
  | Add_line_break => add_line_break
  | Add_page_break => add_page_break
  | Add_table df => add_table w df
  | Add_image i t h wd p => add_image w i t h wd p
  | Add_image_link i t h wd p => add_image_link i t h wd p
  | Add_plotly_figure f inc => add_plotly_figure w f inc
  | Set_style css => set_style css
  | Set_title t => set_title t
  | Write path => write w path
  | Str => _ <- gets __str__ ;; ret tt
  | Add_image_tag src t h wd p => _add_image_tag src t h wd p
  | Encode_image i => _ <- lift (_encode_image w i) ;; ret tt
  | Set_default_style => _set_default_style w
  end.

(** A caller goes on with the document whether a call raised or not. *)
Fixpoint run_all (steps : list (World * call)) (d : Document) : Document :=
  match steps with
  | [] => d
  | (w, c) :: rest => run_all rest (snd (run w c d))
  end.

(** The documents a program can hold: a constructed one, and what any
    call, public or internal, makes of one. *)
Inductive reachable : Document -> Prop :=
  | reach_init class_name w d :
      __init__ class_name w = inr d -> reachable d
  | reach_call w c d : reachable d -> reachable (snd (run w c d)).

(** *** The [isinstance] tests *)

Definition is_dataframe (v : value) : bool :=
  match v with VDataFrame _ => true | _ => false end.

Definition is_path_or_str (v : value) : bool :=
  match v with VPath _ | VStr _ => true | _ => false end.

Definition is_figure (v : value) : bool :=
  match v with VFigure _ => true | _ => false end.

Definition is_image_source (v : value) : bool :=
  match v with
  | VNdarray _ | VImage _ | VPath _ | VStr _ => true
  | _ => false
  end.

(** *** Sequences of [add_plotly_figure] calls *)

Definition chart_call : Type := (World * value * bool)%type.

(** What the call asks of the renderer, if it gets that far. *)
Definition requested_mode (fig : value) (include_plotlyjs : bool)
    (d : Document) : option plotlyjs :=
  match fig with
  | VFigure _ =>
      match plotlyjs_mode include_plotlyjs d with
      | (inr mode, _) => Some mode
      | (inl _, _) => None
      end
  | _ => None
  end.

Fixpoint requested_modes (calls : list chart_call) (d : Document)
    : list (option plotlyjs) :=
  match calls with
  | [] => []
  | (w, fig, inc) :: rest =>
      requested_mode fig inc d
      :: requested_modes rest (snd (add_plotly_figure w fig inc d))
  end.

(** The flag before the first call and after each one. *)
Fixpoint flags (calls : list chart_call) (d : Document) : list bool :=
  _is_plotlyjs_included d ::
  match calls with
  | [] => []
  | (w, fig, inc) :: rest =>
      flags rest (snd (add_plotly_figure w fig inc d))
  end.

Fixpoint rises (l : list bool) : nat :=
  match l with
  | false :: ((true :: _) as rest) => S (rises rest)
  | _ :: rest => rises rest
  | [] => 0
  end.

Fixpoint falls (l : list bool) : nat :=
  match l with
  | true :: ((false :: _) as rest) => S (falls rest)
  | _ :: rest => falls rest
  | [] => 0
  end.

(** Position of the first call that gets as far as the renderer and asks
    for the runtime inline. *)
Fixpoint first_inline (calls : list chart_call) : option nat :=
  match calls with
  | [] => None
  | (_, fig, inc) :: rest =>
      if is_figure fig && inc then Some 0
      else option_map S (first_inline rest)
  end.

(** Position of the first call that asks for the runtime inline. *)
Fixpoint first_requesting (calls : list chart_call) : option nat :=
  match calls with
  | [] => None
  | (_, _, inc) :: rest =>
      if inc then Some 0 else option_map S (first_requesting rest)
  end.

(** One if there is such a call, none otherwise. *)
Definition one_if_some (o : option nat) : nat :=
  match o with
  | Some _ => 1
  | None => 0
  end.

Definition is_inline (m : option plotlyjs) : bool :=
  match m with
  | Some (JsBool true) => true
  | _ => false
  end.

Definition count_inline (l : list (option plotlyjs)) : nat :=
  List.length (filter is_inline l).

(** ** The specification's wording *)

(** The output of serialization as the specification prints it, with a
    placeholder in braces for each field. *)
Definition render_template : string :=
  "<!DOCTYPE html>" ++ nl
  ++ "<html lang=" ++ dq ++ "en" ++ dq ++ ">" ++ nl
  ++ "<head>" ++ nl
  ++ "<meta charset=" ++ dq ++ "UTF-8" ++ dq ++ ">" ++ nl
  ++ "<title>{title}</title>" ++ nl
  ++ "<style type=" ++ dq ++ "text/css" ++ dq ++ ">" ++ nl
  ++ "{style}</style>" ++ nl
  ++ "{head}</head>" ++ nl
  ++ "<body>" ++ nl
  ++ "{body}</body>" ++ nl
  ++ "</html>" ++ nl.

Definition field (name : string) (d : Document) : option string :=
  if String.eqb name "title" then Some (title d)
  else if String.eqb name "style" then Some (style d)
  else if String.eqb name "head" then Some (head d)
  else if String.eqb name "body" then Some (body d)
  else None.

(** One pass over the template: text is copied, a placeholder is replaced
    by the field it names, and what is put in is not read again.  [name]
    holds the letters read since an opening brace. *)
Fixpoint fill_from (tpl : string) (name : option string) (d : Document)
    : string :=
  match tpl, name with
  | EmptyString, None => EmptyString
  | EmptyString, Some n => "{" ++ n
  | String c rest, None =>
      if Ascii.eqb c "{" then fill_from rest (Some EmptyString) d
      else String c (fill_from rest None d)
  | String c rest, Some n =>
      if Ascii.eqb c "}" then
        match field n d with
        | Some v => v
        | None => "{" ++ n ++ "}"
        end ++ fill_from rest None d
      else fill_from rest (Some (n ++ String c EmptyString)) d
  end.

Definition fill (tpl : string) (d : Document) : string :=
  fill_from tpl None d.

(** The image tag as the specification prints it: a bracketed part is
    there when its argument is given and is neither empty nor zero. *)
Definition img_tag_format (src : string) (title : option string)
    (height width : option dim) (pixelated : bool) : string :=
  "<img src=" ++ dq ++ src ++ dq
  ++ match title with
     | Some (String c t) => " title=" ++ dq ++ String c t ++ dq
     | _ => ""
     end
  ++ match height with
     | Some (DInt z) => if Z.eqb z 0 then "" else " height=" ++ str_of_int z
     | Some (DStr (String c t)) => " height=" ++ String c t
     | _ => ""
     end
  ++ match width with
     | Some (DInt z) => if Z.eqb z 0 then "" else " width=" ++ str_of_int z
     | Some (DStr (String c t)) => " width=" ++ String c t
     | _ => ""
     end
  ++ " style=" ++ dq ++ "border:1px solid #021a40; margin: 3px 3px"
  ++ (if pixelated then "; image-rendering: pixelated" else "")
  ++ dq ++ ">" ++ nl.

Definition code_src_prefix : string := "data:image/png;base64, ".


(** The three-way rule of the specification: the mode handed to the
    renderer and the flag afterwards, from the flag before and the caller's
    request. *)
Definition mode_by_rule (included requested : bool) : plotlyjs :=
  if included then JsBool false
  else if requested then JsBool true
  else JsCdn.

Definition flag_by_rule (included requested : bool) : bool :=
  if included then true else requested.

(** The bytes [_encode_image] hands to [base64.b64encode]: what the PNG
    encoder wrote for an array or a decoded image, the file as it is for a
    path. *)
Definition image_bytes (w : World) (image : value) : result (list byte) :=
  match image with
  | VNdarray a =>
      if negb (dtype_eqb (nd_dtype a) uint8) then
        inl (RuntimeError
          ("image.dtype is " ++ dtype_name (nd_dtype a)
           ++ ", but it should be uint8."))
      else if negb (Nat.eqb (ndim a) 2 || Nat.eqb (ndim a) 3) then
        inl (RuntimeError
          ("image.ndim is " ++ str_of_int (Z.of_nat (ndim a))
           ++ ", but it should be 2 or 3."))
      else png_of_array w a
  | VImage i => png_of_image w i
  | VPath p => read_bytes w p
  | VStr p => read_bytes w p
  | _ =>
      inl (TypeError
        ("image is of type " ++ type_repr image ++ ", but it should be one of: "
         ++ class_repr "numpy.ndarray" ++ ", " ++ class_repr "PIL.Image.Image"
         ++ ", " ++ class_repr "pathlib.Path" ++ " or " ++ class_repr "str"
         ++ "."))
  end.




(** The error kinds of the specification. *)
Inductive error_kind : Type :=
  | InvalidArgument
  | InvalidShape
  | IOError
  | ResourceError.

(** The fifth claim as the specification words it, for a reading
    [kind_of] of exceptions as error kinds: a wrong element type fails with
    the invalid-argument kind, a wrong dimensionality with the invalid-shape
    kind, and the document stays as it was. *)
Definition rejects_by_kind (kind_of : exn -> error_kind) : Prop :=
  forall (w : World) (a : ndarray) ttl h wd pix (d : Document),
    (nd_dtype a <> uint8 ->
     exists e, add_image w (VNdarray a) ttl h wd pix d = (inl e, d)
               /\ kind_of e = InvalidArgument)
    /\ (ndim a <> 2%nat -> ndim a <> 3%nat ->
        exists e, add_image w (VNdarray a) ttl h wd pix d = (inl e, d)
                  /\ kind_of e = InvalidShape).

(** ** Runs of calls *)

(** The title a run leaves: that of the last [set_title], or the one it
    started with. *)
Fixpoint last_title (steps : list (World * call)) (t : string) : string :=
  match steps with
  | [] => t
  | (_, Set_title t') :: rest => last_title rest t'
  | _ :: rest => last_title rest t
  end.

(** The style a run leaves: that of the last [set_style], or of the last
    [_set_default_style] that could read the style sheet. *)
Fixpoint last_style (steps : list (World * call)) (s : string) : string :=
  match steps with
  | [] => s
  | (_, Set_style css) :: rest => last_style rest css
  | (w, Set_default_style) :: rest =>
      match read_text w (style_filepath w) with
      | inr css => last_style rest css
      | inl _ => last_style rest s
      end
  | _ :: rest => last_style rest s
  end.

(** What a call asks of the chart renderer; only [add_plotly_figure] asks
    anything. *)
Definition requested_by (c : call) (d : Document) : option plotlyjs :=
  match c with
  | Add_plotly_figure fig inc => requested_mode fig inc d
  | _ => None
  end.

Fixpoint requests (steps : list (World * call)) (d : Document)
    : list (option plotlyjs) :=
  match steps with
  | [] => []
  | (w, c) :: rest => requested_by c d :: requests rest (snd (run w c d))
  end.

(** The mode of the call at position [i] of a sequence of charts whose
    first inline request is at position [k]. *)
Definition expected_mode (k : option nat) (i : nat) : plotlyjs :=
  match k with
  | None => JsCdn
  | Some k =>
      if Nat.ltb i k then JsCdn
      else if Nat.eqb i k then JsBool true
      else JsBool false
  end.

(** *** Chart calls and the renderer *)

(** The document a sequence of chart calls leaves. *)
Fixpoint after_charts (calls : list chart_call) (d : Document) : Document :=
  match calls with
  | [] => d
  | (w, fig, inc) :: rest =>
      after_charts rest (snd (add_plotly_figure w fig inc d))
  end.

(** What comes of handing the renderer of [w] the figure [f] in mode [m]
    on the document [d]: the outcome of the call and the body it leaves. *)
Definition rendered_with (w : World) (f : Figure) (m : plotlyjs)
    (d : Document) : result unit * string :=
  match plotly_to_html w f m with
  | inl e => (inl e, body d)
  | inr html =>
      (inr tt,
       body d
       ++ ("<div class=" ++ dq ++ "plotly-figure" ++ dq ++ ">" ++ nl
           ++ html ++ nl ++ "</div>" ++ nl))
  end.

(** The world [w] with another chart renderer. *)
Definition with_renderer (r : Figure -> plotlyjs -> result string)
    (w : World) : World := {|
  df_to_html := df_to_html w;
  png_of_array := png_of_array w;
  png_of_image := png_of_image w;
  read_bytes := read_bytes w;
  read_text := read_text w;
  write_text := write_text w;
  plotly_to_html := r;
  style_filepath := style_filepath w
|}.

(** *** The shape of text *)

Definition opens_tag (s : string) : bool :=
  match s with
  | String c _ => Ascii.eqb c "<"
  | EmptyString => false
  end.

Fixpoint ends_line (s : string) : bool :=
  match s with
  | EmptyString => false
  | String c EmptyString => Ascii.eqb c "010"
  | String _ rest => ends_line rest
  end.

Fixpoint string_forall (p : ascii -> bool) (s : string) : bool :=
  match s with
  | EmptyString => true
  | String c rest => p c && string_forall p rest
  end.

(** A body is empty, or opens with a tag and ends its last line. *)
Definition body_shaped (b : string) : bool :=
  match b with
  | EmptyString => true
  | _ => opens_tag b && ends_line b
  end.

(** Calls that only read the document. *)
Definition is_readonly (c : call) : bool :=
  match c with
  | Write _ | Str | Encode_image _ => true
  | _ => false
  end.

Definition drop_readonly (steps : list (World * call))
    : list (World * call) :=
  filter (fun step => negb (is_readonly (snd step))) steps.

(** Not the double quote. *)
Definition not_quote (c : ascii) : bool := negb (Ascii.eqb c "034").

(** Calls that set the title or the style. *)
Definition is_setter (c : call) : bool :=
  match c with
  | Set_title _ | Set_style _ | Set_default_style => true
  | _ => false
  end.

Definition drop_setters (steps : list (World * call))
    : list (World * call) :=
  filter (fun step => negb (is_setter (snd step))) steps.

(** The closing lines of every rendering. *)
Definition render_tail : string := "</body>" ++ nl ++ "</html>" ++ nl.

(** What a call other than [add_plotly_figure] on a figure does, whatever
    the document: nothing, or the same fragment onto the body, or a new
    title, or a new style. *)
Inductive effect (w : World) (c : call) : Prop :=
  | effect_none :
      (forall d, snd (run w c d) = d) -> effect w c
  | effect_append (frag : string) :
      opens_tag frag = true -> ends_line frag = true ->
      (forall d, run w c d = (inr tt, with_body (body d ++ frag) d)) ->
      effect w c
  | effect_chart (f : Figure) (inc : bool) :
      c = Add_plotly_figure (VFigure f) inc -> effect w c
  | effect_title (t : string) :
      c = Set_title t -> effect w c
  | effect_style (css : string) :
      c = Set_style css
      \/ (c = Set_default_style
          /\ read_text w (style_filepath w) = inr css) ->
      (forall d, run w c d = (inr tt, with_style css d)) -> effect w c.

(** ** Sample collaborators *)

Module Sample.

Definition png_bytes : list byte :=
  [x89; x50; x4e; x47; x0d; x0a; x1a; x0a]%byte.

Definition chart_html (mode : plotlyjs) : string :=
  match mode with
  | JsBool true => "<script>/* plotly.js */</script><div>chart</div>"
  | JsBool false => "<div>chart</div>"
  | JsCdn => "<script src=" ++ dq ++ "https://cdn.plot.ly/plotly.min.js" ++ dq
             ++ "></script><div>chart</div>"
  end.

Definition world : World := {|
  df_to_html := fun _ => inr "<table></table>";
  png_of_array := fun _ => inr png_bytes;
  png_of_image := fun _ => inr png_bytes;
  read_bytes := fun _ => inr ["M"; "a"; "n"; "M"]%byte;
  read_text := fun _ => inr "body { margin: 0 }";
  write_text := fun _ _ => inr tt;
  plotly_to_html := fun _ mode => inr (chart_html mode);
  style_filepath := "/site-packages/htmlcreator/style.css"
|}.

(** A world whose chart renderer raises. *)
Definition world_renderer_fails : World := {|
  df_to_html := df_to_html world;
  png_of_array := png_of_array world;
  png_of_image := png_of_image world;
  read_bytes := read_bytes world;
  read_text := read_text world;
  write_text := write_text world;
  plotly_to_html := fun _ _ => inl (OtherError "ValueError" "invalid figure");
  style_filepath := style_filepath world
|}.

Definition doc : Document := {|
  style := "body { margin: 0 }";
  title := "HTMLDocument";
  head := "";
  body := "<br>" ++ nl;
  _is_plotlyjs_included := false
|}.

(** The document of the specification's scenario: built, titled, then a
    header and a paragraph. *)
Definition fresh : Document := {|
  style := "body { margin: 0 }";
  title := "HTMLDocument";
  head := "";
  body := "";
  _is_plotlyjs_included := false
|}.

Definition titled : Document := snd (run world (Set_title "Report") fresh).

Definition headed : Document :=
  snd (run world (Add_header "Results" "h2" "left") titled).

Definition report : Document :=
  snd (run world (Add_text "done" "16px" "0" "left") headed).

(** Three charts: the first asks for the CDN reference, the next two for
    the runtime inline. *)
Definition charts : list chart_call :=
  [ (world, VFigure (FigureAt 1), false);
    (world, VFigure (FigureAt 2), true);
    (world, VFigure (FigureAt 3), true) ].

(** The same with a first call that passes a string for the figure. *)
Definition charts_after_bad_call : list chart_call :=
  (world, VStr "not a figure", true) :: charts.

Definition rgb_2x2 : ndarray := {|
  nd_dtype := uint8;
  nd_shape := [2; 2; 3]%nat;
  nd_data := repeat x00%byte 12
|}.

Definition float_1d : ndarray := {|
  nd_dtype := float64;
  nd_shape := [4]%nat;
  nd_data := repeat x00%byte 32
|}.

Definition float_2d : ndarray := {|
  nd_dtype := float64;
  nd_shape := [2; 2]%nat;
  nd_data := repeat x00%byte 32
|}.

Definition uint8_1d : ndarray := {|
  nd_dtype := uint8;
  nd_shape := [4]%nat;
  nd_data := repeat x00%byte 4
|}.

Definition uint8_4d : ndarray := {|
  nd_dtype := uint8;
  nd_shape := [1; 2; 2; 3]%nat;
  nd_data := repeat x00%byte 12
|}.

(** A world without files: every read raises. *)
Definition world_no_files : World := {|
  df_to_html := df_to_html world;
  png_of_array := png_of_array world;
  png_of_image := png_of_image world;
  read_bytes := fun _ => inl (OSError "No such file or directory");
  read_text := fun _ => inl (OSError "No such file or directory");
  write_text := write_text world;
  plotly_to_html := plotly_to_html world;
  style_filepath := style_filepath world
|}.

(** A run that mixes setters, appends, charts and calls that raise. *)
Definition session : list (World * call) :=
  [ (world, Set_title "Draft");
    (world, Add_header "Results" "h2" "left");
    (world, Add_plotly_figure (VFigure (FigureAt 1)) false);
    (world_no_files, Add_image (VPath "missing.png") None None None false);
    (world_renderer_fails, Add_plotly_figure (VFigure (FigureAt 2)) true);
    (world, Set_style "p { color: black }");
    (world_no_files, Set_default_style);
    (world, Add_plotly_figure (VFigure (FigureAt 3)) true);
    (world, Set_title "Report");
    (world, Add_table (VStr "not a table")) ].


(** Two rows of three pixels. *)
Definition rgb_2x3 : ndarray := {|
  nd_dtype := uint8;
  nd_shape := [2; 3; 3]%nat;
  nd_data := repeat x7f%byte 18
|}.

(** What [Png.encode] writes for [rgb_2x2]. *)
Definition rgb_2x2_png : list byte :=
  match Png.encode rgb_2x2 with
  | inr png => png
  | inl _ => []
  end.

End Sample.

(** * Properties *)

(** ** Strings *)

Module StrFacts.

Lemma append_assoc (a b c : string) : (a ++ b) ++ c = a ++ (b ++ c).
Proof.
  induction a as [|x a IH]; simpl; [reflexivity | now rewrite IH].
Qed.

Lemma append_nil_r (a : string) : a ++ "" = a.
Proof.
  induction a as [|x a IH]; simpl; [reflexivity | now rewrite IH].
Qed.

Lemma is_prefix_refl a : is_prefix a a.
Proof. exists "". now rewrite append_nil_r. Qed.

Lemma is_prefix_trans a b c : is_prefix a b -> is_prefix b c -> is_prefix a c.
Proof.
  intros [s1 ->] [s2 ->]. exists (s1 ++ s2). apply append_assoc.
Qed.

Lemma is_prefix_app a s : is_prefix a (a ++ s).
Proof. now exists s. Qed.

End StrFacts.

Import StrFacts.

Ltac str_norm := repeat rewrite append_assoc; cbn [append].

(** ** Base64: decoding inverts encoding *)

Module Base64Facts.

Import Base64.
Local Open Scope N_scope.

Ltac below64 n :=
  destruct n as [|n]; [|do 6 (try destruct n as [n|n|])];
  try (exfalso; lia).

Lemma b64val_b64char (n : N) : n < 64 -> b64val (b64char n) = Some n.
Proof.
  intros H. below64 n; reflexivity.
Qed.


Lemma sextets3_bounds (a b c : N) :
  a <= 255 -> b <= 255 -> c <= 255 ->
  let '(s1, s2, s3, s4) := sextets3 a b c in
  s1 < 64 /\ s2 < 64 /\ s3 < 64 /\ s4 < 64.
Proof.
  intros Ha Hb Hc. unfold sextets3.
  pose proof (N.mod_lt a 4). pose proof (N.mod_lt b 16).
  pose proof (N.mod_lt c 64).
  assert (a / 4 < 64) by (apply N.Div0.div_lt_upper_bound; lia).
  assert (b / 16 < 16) by (apply N.Div0.div_lt_upper_bound; lia).
  assert (c / 64 < 4) by (apply N.Div0.div_lt_upper_bound; lia).
  lia.
Qed.





Lemma is_b64_char_b64char (n : N) : n < 64 -> is_b64_char (b64char n) = true.
Proof.
  intros H. unfold is_b64_char. now rewrite b64val_b64char.
Qed.




End Base64Facts.

(** ** Element types *)

Lemma dtype_eqb_eq (a b : dtype) : dtype_eqb a b = true <-> a = b.
Proof.
  destruct a, b; simpl; split; intros H; try reflexivity; discriminate H.
Qed.

(** ** The method monad *)

Ltac unfold_monad :=
  unfold append_body, modify, gets, lift, raise, ret, bind in *.

Lemma append_body_run (fragment : string) (d : Document) :
  append_body fragment d = (inr tt, with_body (body d ++ fragment) d).
Proof. reflexivity. Qed.

(** ** Serialization *)

(** Markup in a field reaches the output as it is. *)
Example render_passes_markup :
  __str__ (with_title "<b>R&D</b>" Sample.doc)
  = "<!DOCTYPE html>" ++ nl ++ "<html lang=" ++ dq ++ "en" ++ dq ++ ">" ++ nl
    ++ "<head>" ++ nl ++ "<meta charset=" ++ dq ++ "UTF-8" ++ dq ++ ">" ++ nl
    ++ "<title><b>R&D</b></title>" ++ nl
    ++ "<style type=" ++ dq ++ "text/css" ++ dq ++ ">" ++ nl
    ++ "body { margin: 0 }</style>" ++ nl ++ "</head>" ++ nl
    ++ "<body>" ++ nl ++ "<br>" ++ nl ++ "</body>" ++ nl ++ "</html>" ++ nl.
Proof. reflexivity. Qed.

(** A field that itself spells a placeholder is not filled a second time. *)
Example fill_is_one_pass :
  fill "<title>{title}</title>" (with_title "{body}" Sample.doc)
  = "<title>{body}</title>".
Proof. reflexivity. Qed.

Lemma fill_from_text (c : ascii) (rest : string) (d : Document) :
  Ascii.eqb c "{" = false ->
  fill_from (String c rest) None d = String c (fill_from rest None d).
Proof. intros H. simpl. now rewrite H. Qed.

(** C1: for every document, [__str__] returns exactly the text the
    specification prints, tag for tag and newline for newline, with the
    title, style, head and body of the document put in as they are. *)
Theorem C1_render_exact (d : Document) :
  __str__ d = fill render_template d.
Proof.
  unfold __str__, fill, render_template. str_norm.
  repeat first
    [ rewrite fill_from_text by reflexivity; f_equal
    | progress cbn [fill_from Ascii.eqb Bool.eqb field String.eqb append] ].
Qed.

(** C8: two documents with the same title, style, head and body render to
    the same text, whatever the flag says; and rendering leaves the document
    as it was, so rendering twice gives the same text twice. *)
Theorem C8_render_pure (d1 d2 : Document) :
  title d1 = title d2 -> style d1 = style d2 ->
  head d1 = head d2 -> body d1 = body d2 ->
  __str__ d1 = __str__ d2
  /\ (forall w, snd (run w Str d1) = d1)
  /\ (forall w, __str__ (snd (run w Str d1)) = __str__ d1).
Proof.
  intros Ht Hs Hh Hb. split; [|split].
  - unfold __str__. now rewrite Ht, Hs, Hh, Hb.
  - intros w. reflexivity.
  - intros w. reflexivity.
Qed.

Lemma C8_render_pure_witness :
  __str__ Sample.doc = __str__ (with_plotlyjs_included true Sample.doc)
  /\ (forall w, snd (run w Str Sample.doc) = Sample.doc)
  /\ (forall w, __str__ (snd (run w Str Sample.doc)) = __str__ Sample.doc).
Proof.
  apply (C8_render_pure Sample.doc (with_plotlyjs_included true Sample.doc));
    reflexivity.
Defined.

(** ** The image tag *)

Lemma add_image_tag_format (src : string) (ttl : option string)
    (h wd : option dim) (pix : bool) (d : Document) :
  _add_image_tag src ttl h wd pix d
  = (inr tt, with_body (body d ++ img_tag_format src ttl h wd pix) d).
Proof.
  unfold _add_image_tag, img_tag_format. rewrite append_body_run.
  do 2 f_equal.
  destruct ttl as [[|c t]|]; cbn [truthy_str String.eqb negb format_str];
    (destruct h as [[z|[|c1 s1]]|];
     cbn [truthy_dim String.eqb negb format_dim];
     [destruct (Z.eqb z 0); cbn [negb]| | |]);
    (destruct wd as [[z2|[|c2 s2]]|];
     cbn [truthy_dim String.eqb negb format_dim];
     [destruct (Z.eqb z2 0); cbn [negb]| | |]);
    destruct pix; str_norm; reflexivity.
Qed.

Lemma add_image_link_success (v : value) (ttl : option string)
    (h wd : option dim) (pix : bool) (d : Document) :
  fst (add_image_link v ttl h wd pix d) = inr tt ->
  exists src, (v = VPath src \/ v = VStr src)
    /\ add_image_link v ttl h wd pix d
       = (inr tt, with_body (body d ++ img_tag_format src ttl h wd pix) d).
Proof.
  destruct v; cbn [add_image_link]; try (intros H; discriminate H); intros _.
  - exists s. split; [now right | apply add_image_tag_format].
  - exists p. split; [now left | apply add_image_tag_format].
Qed.

Lemma add_image_success (w : World) (image : value) (ttl : option string)
    (h wd : option dim) (pix : bool) (d : Document) :
  fst (add_image w image ttl h wd pix d) = inr tt ->
  exists b64, _encode_image w image = inr b64
    /\ add_image w image ttl h wd pix d
       = (inr tt,
          with_body
            (body d ++ img_tag_format (code_src_prefix ++ b64) ttl h wd pix) d).
Proof.
  unfold add_image, bind, lift.
  destruct (_encode_image w image) as [e|b64]; cbn [fst].
  - intros H; discriminate H.
  - intros _. exists b64. split; [reflexivity | apply add_image_tag_format].
Qed.

(** The two cases the specification tests: neither attribute, and both. *)
Example img_tag_without_title_height :
  img_tag_format "plot.png" None None None false
  = "<img src=" ++ dq ++ "plot.png" ++ dq ++ " style=" ++ dq
    ++ "border:1px solid #021a40; margin: 3px 3px" ++ dq ++ ">" ++ nl
  /\ contains "title=" (img_tag_format "plot.png" None None None false) = false
  /\ contains "height=" (img_tag_format "plot.png" None None None false) = false.
Proof. repeat split; reflexivity. Qed.

Example img_tag_with_title_height :
  img_tag_format "plot.png" (Some "X") (Some (DInt 50)) None false
  = "<img src=" ++ dq ++ "plot.png" ++ dq ++ " title=" ++ dq ++ "X" ++ dq
    ++ " height=50 style=" ++ dq
    ++ "border:1px solid #021a40; margin: 3px 3px" ++ dq ++ ">" ++ nl.
Proof. reflexivity. Qed.

(** An empty title and a zero height are left out like absent ones. *)
Example img_tag_falsy_arguments :
  img_tag_format "plot.png" (Some "") (Some (DInt 0)) (Some (DStr "")) true
  = "<img src=" ++ dq ++ "plot.png" ++ dq ++ " style=" ++ dq
    ++ "border:1px solid #021a40; margin: 3px 3px; image-rendering: pixelated"
    ++ dq ++ ">" ++ nl.
Proof. reflexivity. Qed.

(** C6: the shared renderer appends exactly the tag the specification
    prints, each optional attribute present just when its argument is given
    and truthy and the pixelated suffix just when the flag is set; every
    [add_image_link] and [add_image] call that succeeds appends that tag,
    with the link itself or the data URI as its source. *)
Theorem C6_image_tag_format (src : string) (ttl : option string)
    (h wd : option dim) (pix : bool) (d : Document) :
  _add_image_tag src ttl h wd pix d
  = (inr tt, with_body (body d ++ img_tag_format src ttl h wd pix) d)
  /\ (forall v,
        fst (add_image_link v ttl h wd pix d) = inr tt ->
        exists link, (v = VPath link \/ v = VStr link)
          /\ add_image_link v ttl h wd pix d
             = (inr tt,
                with_body (body d ++ img_tag_format link ttl h wd pix) d))
  /\ (forall w image,
        fst (add_image w image ttl h wd pix d) = inr tt ->
        exists b64, _encode_image w image = inr b64
          /\ add_image w image ttl h wd pix d
             = (inr tt,
                with_body
                  (body d
                   ++ img_tag_format (code_src_prefix ++ b64) ttl h wd pix)
                  d)).
Proof.
  split; [apply add_image_tag_format | split].
  - intros v. apply add_image_link_success.
  - intros w image. apply add_image_success.
Qed.

Lemma C6_image_tag_format_witness :
  exists b64,
    _encode_image Sample.world (VNdarray Sample.rgb_2x2) = inr b64
    /\ add_image Sample.world (VNdarray Sample.rgb_2x2) (Some "X")
         (Some (DInt 50)) None false Sample.report
       = (inr tt,
          with_body
            (body Sample.report
             ++ img_tag_format (code_src_prefix ++ b64) (Some "X")
                  (Some (DInt 50)) None false)
            Sample.report).
Proof.
  destruct (C6_image_tag_format "" (Some "X") (Some (DInt 50)) None false
              Sample.report) as (_ & _ & Himage).
  apply Himage. reflexivity.
Defined.

(** ** What a call can do to the document *)

(** Every call, whether it returns or raises, leaves the head alone and
    leaves the body with its old text in front. *)
Lemma run_effect (w : World) (c : call) (d : Document) :
  exists css ttl suf flag,
    snd (run w c d)
    = {| style := css; title := ttl; head := head d; body := body d ++ suf;
         _is_plotlyjs_included := flag |}.
Proof.
  assert (Hsame : exists css ttl suf flag,
             d = {| style := css; title := ttl; head := head d;
                    body := body d ++ suf; _is_plotlyjs_included := flag |}).
  { exists (style d), (title d), "", (_is_plotlyjs_included d).
    rewrite append_nil_r. now destruct d. }
  assert (Hgrow : forall frag, exists css ttl suf flag,
             with_body (body d ++ frag) d
             = {| style := css; title := ttl; head := head d;
                  body := body d ++ suf; _is_plotlyjs_included := flag |}).
  { intros frag.
    now exists (style d), (title d), frag, (_is_plotlyjs_included d). }
  destruct c; cbn [run].
  - apply Hgrow.
  - apply Hgrow.
  - apply Hgrow.
  - apply Hgrow.
  - unfold add_table. destruct df; try exact Hsame.
    unfold bind, lift. destruct (df_to_html w df); [exact Hsame | apply Hgrow].
  - unfold add_image, bind, lift.
    destruct (_encode_image w image); [exact Hsame|].
    rewrite add_image_tag_format. apply Hgrow.
  - unfold add_image_link.
    destruct image_link; try exact Hsame;
      rewrite add_image_tag_format; apply Hgrow.
  - unfold add_plotly_figure. destruct fig; try exact Hsame.
    unfold plotlyjs_mode. unfold_monad.
    destruct (_is_plotlyjs_included d) eqn:Hflag.
    + destruct (plotly_to_html w f (JsBool false)); [exact Hsame|].
      cbn [snd]. apply Hgrow.
    + destruct include_plotlyjs.
      * destruct (plotly_to_html w f (JsBool true)); cbn [snd].
        -- exists (style d), (title d), "", true.
           rewrite append_nil_r. reflexivity.
        -- now exists (style d), (title d),
             ("<div class=" ++ dq ++ "plotly-figure" ++ dq ++ ">" ++ nl
              ++ s ++ nl ++ "</div>" ++ nl), true.
      * destruct (plotly_to_html w f JsCdn); [exact Hsame|].
        cbn [snd]. apply Hgrow.
  - exists css, (title d), "", (_is_plotlyjs_included d).
    cbn. now rewrite append_nil_r.
  - exists (style d), text, "", (_is_plotlyjs_included d).
    cbn. now rewrite append_nil_r.
  - unfold write. unfold_monad.
    destruct (write_text w filepath (__str__ d)); exact Hsame.
  - exact Hsame.
  - rewrite add_image_tag_format. apply Hgrow.
  - unfold_monad. destruct (_encode_image w image); exact Hsame.
  - unfold _set_default_style. unfold_monad.
    destruct (read_text w (style_filepath w)); [exact Hsame|].
    exists s, (title d), "", (_is_plotlyjs_included d).
    cbn. now rewrite append_nil_r.
Qed.

Lemma run_head (w : World) (c : call) (d : Document) :
  head (snd (run w c d)) = head d.
Proof.
  destruct (run_effect w c d) as (css & ttl & suf & flag & ->). reflexivity.
Qed.

Lemma run_body_prefix (w : World) (c : call) (d : Document) :
  is_prefix (body d) (body (snd (run w c d))).
Proof.
  destruct (run_effect w c d) as (css & ttl & suf & flag & ->).
  apply is_prefix_app.
Qed.

Lemma run_all_body_prefix (steps : list (World * call)) (d : Document) :
  is_prefix (body d) (body (run_all steps d)).
Proof.
  revert d. induction steps as [|[w c] rest IH]; intros d; cbn [run_all].
  - apply is_prefix_refl.
  - eapply is_prefix_trans; [apply run_body_prefix | apply IH].
Qed.

Lemma init_head (class_name : string) (w : World) (d : Document) :
  __init__ class_name w = inr d -> head d = "".
Proof.
  unfold __init__, _set_default_style. unfold_monad.
  destruct (read_text w (style_filepath w)); intros H;
    [discriminate H | injection H as <-; reflexivity].
Qed.

Lemma reachable_head (d : Document) : reachable d -> head d = "".
Proof.
  induction 1 as [cls w d Hinit | w c d _ IH].
  - exact (init_head cls w d Hinit).
  - now rewrite run_head.
Qed.

(** C9: the head is empty when the document is built and no call, public
    or internal, changes it; so every document a program can reach has an
    empty head, and between [<head>] and [</head>] its rendering holds the
    meta, title and style parts and nothing more. *)
Theorem C9_head_always_empty (d : Document) :
  reachable d ->
  head d = ""
  /\ (forall w c, head (snd (run w c d)) = "")
  /\ __str__ d
     = "<!DOCTYPE html>" ++ nl
       ++ "<html lang=" ++ dq ++ "en" ++ dq ++ ">" ++ nl
       ++ "<head>" ++ nl
       ++ "<meta charset=" ++ dq ++ "UTF-8" ++ dq ++ ">" ++ nl
       ++ "<title>" ++ title d ++ "</title>" ++ nl
       ++ "<style type=" ++ dq ++ "text/css" ++ dq ++ ">" ++ nl
       ++ style d ++ "</style>" ++ nl
       ++ "</head>" ++ nl
       ++ "<body>" ++ nl ++ body d ++ "</body>" ++ nl ++ "</html>" ++ nl.
Proof.
  intros Hreach. pose proof (reachable_head d Hreach) as Hhead.
  split; [exact Hhead | split].
  - intros w c. now rewrite run_head.
  - unfold __str__. rewrite Hhead. reflexivity.
Qed.

Lemma C9_head_always_empty_witness :
  head Sample.report = ""
  /\ (forall w c, head (snd (run w c Sample.report)) = "")
  /\ __str__ Sample.report
     = "<!DOCTYPE html>" ++ nl
       ++ "<html lang=" ++ dq ++ "en" ++ dq ++ ">" ++ nl
       ++ "<head>" ++ nl
       ++ "<meta charset=" ++ dq ++ "UTF-8" ++ dq ++ ">" ++ nl
       ++ "<title>" ++ title Sample.report ++ "</title>" ++ nl
       ++ "<style type=" ++ dq ++ "text/css" ++ dq ++ ">" ++ nl
       ++ style Sample.report ++ "</style>" ++ nl
       ++ "</head>" ++ nl
       ++ "<body>" ++ nl ++ body Sample.report ++ "</body>" ++ nl
       ++ "</html>" ++ nl.
Proof.
  apply (C9_head_always_empty Sample.report).
  unfold Sample.report, Sample.headed, Sample.titled.
  do 3 apply reach_call.
  apply (reach_init HTMLDocument_name Sample.world). reflexivity.
Defined.

(** The scenario of the specification, in full. *)
Example report_rendered :
  __str__ Sample.report
  = "<!DOCTYPE html>" ++ nl
    ++ "<html lang=" ++ dq ++ "en" ++ dq ++ ">" ++ nl
    ++ "<head>" ++ nl
    ++ "<meta charset=" ++ dq ++ "UTF-8" ++ dq ++ ">" ++ nl
    ++ "<title>Report</title>" ++ nl
    ++ "<style type=" ++ dq ++ "text/css" ++ dq ++ ">" ++ nl
    ++ "body { margin: 0 }</style>" ++ nl
    ++ "</head>" ++ nl
    ++ "<body>" ++ nl
    ++ "<h2 style=" ++ dq ++ "text-align: left" ++ dq ++ ">Results</h2>" ++ nl
    ++ "<p style=" ++ dq
    ++ "font-size:16px; text-indent: 0; text-align: left" ++ dq ++ ">done</p>"
    ++ nl
    ++ "</body>" ++ nl ++ "</html>" ++ nl.
Proof. reflexivity. Qed.

(** ** The body only grows *)

Lemma img_tag_format_nonempty (src : string) (ttl : option string)
    (h wd : option dim) (pix : bool) :
  img_tag_format src ttl h wd pix <> "".
Proof. unfold img_tag_format. cbn [append]. discriminate. Qed.

Lemma append_grows (w : World) (c : call) (d : Document) :
  is_append c = true ->
  fst (run w c d) = inr tt ->
  exists suf, suf <> "" /\ body (snd (run w c d)) = body d ++ suf.
Proof.
  intros Happ Hok.
  destruct c as [hdr lvl al | txt sz ind al | | | df | image ttl h wd pix
                | image_link ttl h wd pix | fig inc | | | | | | |];
    try discriminate Happ; cbn [run] in *.
  - eexists; split; [|reflexivity]. cbn [append]. discriminate.
  - eexists; split; [|reflexivity]. cbn [append]. discriminate.
  - eexists; split; [|reflexivity]. cbn [append]. discriminate.
  - eexists; split; [|reflexivity]. cbn [append]. discriminate.
  - unfold add_table in *. destruct df; try discriminate Hok.
    unfold bind, lift in *.
    destruct (df_to_html w df) as [e|html]; [discriminate Hok|].
    eexists; split; [|reflexivity]. cbn [append]. discriminate.
  - destruct (add_image_success w image ttl h wd pix d Hok)
      as (b64 & _ & ->).
    eexists; split; [apply img_tag_format_nonempty | reflexivity].
  - destruct (add_image_link_success image_link ttl h wd pix d Hok)
      as (src & _ & ->).
    eexists; split; [apply img_tag_format_nonempty | reflexivity].
  - unfold add_plotly_figure, plotlyjs_mode in *.
    destruct fig; try discriminate Hok. unfold_monad.
    destruct (_is_plotlyjs_included d).
    + destruct (plotly_to_html w f (JsBool false)) as [e|html];
        [discriminate Hok|].
      eexists; split; [|reflexivity]. cbn [append]. discriminate.
    + destruct inc.
      * destruct (plotly_to_html w f (JsBool true)) as [e|html];
          [discriminate Hok|].
        eexists; split; [|reflexivity]. cbn [append]. discriminate.
      * destruct (plotly_to_html w f JsCdn) as [e|html]; [discriminate Hok|].
        eexists; split; [|reflexivity]. cbn [append]. discriminate.
Qed.

(** C7: a successful call of any of the eight append operations leaves a
    body that is the old body followed by a non-empty fragment; and over any
    run of calls, successful or not, setters included, the body a document
    had stays in front of the body it has. *)
Theorem C7_body_only_grows (w : World) (c : call) (d : Document) :
  is_append c = true ->
  fst (run w c d) = inr tt ->
  (exists suf, suf <> "" /\ body (snd (run w c d)) = body d ++ suf)
  /\ (forall steps d0, is_prefix (body d0) (body (run_all steps d0))).
Proof.
  intros Happ Hok. split.
  - now apply append_grows.
  - apply run_all_body_prefix.
Qed.

Lemma C7_body_only_grows_witness :
  (exists suf, suf <> ""
     /\ body (snd (run Sample.world
                     (Add_image (VNdarray Sample.rgb_2x2) None None None false)
                     Sample.report))
        = body Sample.report ++ suf)
  /\ (forall steps d0, is_prefix (body d0) (body (run_all steps d0))).
Proof.
  apply (C7_body_only_grows Sample.world
           (Add_image (VNdarray Sample.rgb_2x2) None None None false)
           Sample.report); reflexivity.
Defined.

(** ** Rejected arguments *)

Lemma add_table_rejects (w : World) (v : value) (d : Document) :
  is_dataframe v = false ->
  exists msg, add_table w v d = (inl (TypeError msg), d).
Proof.
  destruct v; intros H; try discriminate H; eexists; reflexivity.
Qed.

Lemma add_image_link_rejects (v : value) (ttl : option string)
    (h wd : option dim) (pix : bool) (d : Document) :
  is_path_or_str v = false ->
  exists msg, add_image_link v ttl h wd pix d = (inl (TypeError msg), d).
Proof.
  destruct v; intros H; try discriminate H; eexists; reflexivity.
Qed.

Lemma add_plotly_figure_rejects (w : World) (v : value) (inc : bool)
    (d : Document) :
  is_figure v = false ->
  exists msg, add_plotly_figure w v inc d = (inl (TypeError msg), d).
Proof.
  destruct v; intros H; try discriminate H; eexists; reflexivity.
Qed.

Lemma add_image_failure (w : World) (image : value) (ttl : option string)
    (h wd : option dim) (pix : bool) (d : Document) (e : exn) :
  _encode_image w image = inl e ->
  add_image w image ttl h wd pix d = (inl e, d).
Proof.
  intros H. unfold add_image, bind, lift. now rewrite H.
Qed.

Lemma encode_image_rejects_type (w : World) (v : value) :
  is_image_source v = false ->
  exists msg, _encode_image w v = inl (TypeError msg).
Proof.
  destruct v; intros H; try discriminate H; eexists; reflexivity.
Qed.

Lemma encode_image_rejects_dtype (w : World) (a : ndarray) :
  nd_dtype a <> uint8 ->
  _encode_image w (VNdarray a)
  = inl (RuntimeError
           ("image.dtype is " ++ dtype_name (nd_dtype a)
            ++ ", but it should be uint8.")).
Proof.
  intros H. cbn [_encode_image].
  destruct (dtype_eqb (nd_dtype a) uint8) eqn:E; [|reflexivity].
  apply dtype_eqb_eq in E. contradiction.
Qed.

Lemma encode_image_rejects_ndim (w : World) (a : ndarray) :
  nd_dtype a = uint8 -> ndim a <> 2%nat -> ndim a <> 3%nat ->
  _encode_image w (VNdarray a)
  = inl (RuntimeError
           ("image.ndim is " ++ str_of_int (Z.of_nat (ndim a))
            ++ ", but it should be 2 or 3.")).
Proof.
  intros Hd H2 H3. cbn [_encode_image]. rewrite Hd. cbn [dtype_eqb negb].
  apply Nat.eqb_neq in H2. apply Nat.eqb_neq in H3. now rewrite H2, H3.
Qed.

(** The two checks on an array come one after the other, so an array
    rejected on either count is rejected. *)
Lemma encode_image_rejects_array (w : World) (a : ndarray) :
  nd_dtype a <> uint8 \/ (ndim a <> 2%nat /\ ndim a <> 3%nat) ->
  exists msg, _encode_image w (VNdarray a) = inl (RuntimeError msg).
Proof.
  intros H.
  destruct (dtype_eqb (nd_dtype a) uint8) eqn:E.
  - apply dtype_eqb_eq in E. destruct H as [H|[H2 H3]]; [contradiction|].
    eexists. now apply encode_image_rejects_ndim.
  - eexists. apply encode_image_rejects_dtype.
    intros Heq. apply dtype_eqb_eq in Heq. congruence.
Qed.

(** C3: when [add_table], [add_image_link], [add_plotly_figure] or
    [add_image] rejects its argument, the exception comes with the document
    as it was before the call: title, style, head, body and flag. *)
Theorem C3_rejection_leaves_document (w : World) (d : Document) :
  (forall v, is_dataframe v = false ->
     exists msg, add_table w v d = (inl (TypeError msg), d))
  /\ (forall v ttl h wd pix, is_path_or_str v = false ->
        exists msg, add_image_link v ttl h wd pix d = (inl (TypeError msg), d))
  /\ (forall v inc, is_figure v = false ->
        exists msg, add_plotly_figure w v inc d = (inl (TypeError msg), d))
  /\ (forall v ttl h wd pix, is_image_source v = false ->
        exists msg, add_image w v ttl h wd pix d = (inl (TypeError msg), d))
  /\ (forall a ttl h wd pix,
        nd_dtype a <> uint8 \/ (ndim a <> 2%nat /\ ndim a <> 3%nat) ->
        exists msg,
          add_image w (VNdarray a) ttl h wd pix d = (inl (RuntimeError msg), d)).
Proof.
  repeat split.
  - intros v H. now apply add_table_rejects.
  - intros v ttl h wd pix H. now apply add_image_link_rejects.
  - intros v inc H. now apply add_plotly_figure_rejects.
  - intros v ttl h wd pix H.
    destruct (encode_image_rejects_type w v H) as [msg Hmsg].
    exists msg. now apply add_image_failure.
  - intros a ttl h wd pix H.
    destruct (encode_image_rejects_array w a H) as [msg Hmsg].
    exists msg. now apply add_image_failure.
Qed.

Lemma C3_rejection_leaves_document_witness :
  (exists msg,
     add_table Sample.world (VStr "a plain string") Sample.report
     = (inl (TypeError msg), Sample.report))
  /\ (exists msg,
        add_image Sample.world (VNdarray Sample.uint8_4d) None None None false
          Sample.report
        = (inl (RuntimeError msg), Sample.report)).
Proof.
  destruct (C3_rejection_leaves_document Sample.world Sample.report)
    as (Htable & _ & _ & _ & Harray).
  split.
  - apply Htable. reflexivity.
  - apply Harray. right. split; cbn; lia.
Defined.

(** ** Arrays of the wrong element type or shape *)

(** C5, as the code has it: an array whose element type is not [uint8] is
    rejected with a [RuntimeError] that names the element type, whatever its
    shape; a [uint8] array of neither 2 nor 3 dimensions is rejected with a
    [RuntimeError] that names the number of dimensions; the two failures are
    of one exception class, which is not the [TypeError] of a wrong argument
    type; and the document is as it was. *)
Theorem C5_array_rejections (w : World) (a : ndarray) (ttl : option string)
    (h wd : option dim) (pix : bool) (d : Document) :
  (nd_dtype a <> uint8 ->
   add_image w (VNdarray a) ttl h wd pix d
   = (inl (RuntimeError
             ("image.dtype is " ++ dtype_name (nd_dtype a)
              ++ ", but it should be uint8.")), d))
  /\ (nd_dtype a = uint8 -> ndim a <> 2%nat -> ndim a <> 3%nat ->
      add_image w (VNdarray a) ttl h wd pix d
      = (inl (RuntimeError
                ("image.ndim is " ++ str_of_int (Z.of_nat (ndim a))
                 ++ ", but it should be 2 or 3.")), d))
  /\ (nd_dtype a <> uint8 \/ (ndim a <> 2%nat /\ ndim a <> 3%nat) ->
      exists e, add_image w (VNdarray a) ttl h wd pix d = (inl e, d)
                /\ class_of e = CRuntimeError
                /\ class_of e <> CTypeError).
Proof.
  split; [|split].
  - intros H. apply add_image_failure. now apply encode_image_rejects_dtype.
  - intros Hd H2 H3. apply add_image_failure.
    now apply encode_image_rejects_ndim.
  - intros H. destruct (encode_image_rejects_array w a H) as [msg Hmsg].
    exists (RuntimeError msg). split; [now apply add_image_failure|].
    split; [reflexivity | discriminate].
Qed.

Lemma C5_array_rejections_witness :
  add_image Sample.world (VNdarray Sample.float_2d) None None None false
    Sample.report
  = (inl (RuntimeError "image.dtype is float64, but it should be uint8."),
     Sample.report).
Proof.
  apply (C5_array_rejections Sample.world Sample.float_2d None None None false
           Sample.report).
  discriminate.
Defined.

(** A one-dimensional array of floats fails both tests of the claim, and
    the one exception it raises cannot be of two kinds. *)
Lemma C5_counterexample :
  add_image Sample.world (VNdarray Sample.float_1d) None None None false
    Sample.doc
  = (inl (RuntimeError "image.dtype is float64, but it should be uint8."),
     Sample.doc)
  /\ ~ (exists kind_of, rejects_by_kind kind_of).
Proof.
  split; [reflexivity|].
  intros [kind_of H].
  destruct (H Sample.world Sample.float_1d None None None false Sample.doc)
    as [Hdtype Hndim].
  destruct Hdtype as (e1 & He1 & Hk1); [discriminate|].
  destruct Hndim as (e2 & He2 & Hk2); [cbn; lia | cbn; lia |].
  rewrite He1 in He2. injection He2 as ->. congruence.
Qed.

(** ** Embedded images *)

Lemma encode_image_bytes (w : World) (image : value) :
  _encode_image w image
  = match image_bytes w image with
    | inl e => inl e
    | inr bytes => inr (Base64.b64encode bytes)
    end.
Proof.
  destruct image; cbn [_encode_image image_bytes]; try reflexivity.
  destruct (negb (dtype_eqb (nd_dtype a) uint8)); [reflexivity|].
  destruct (negb (Nat.eqb (ndim a) 2 || Nat.eqb (ndim a) 3)); reflexivity.
Qed.





(** Known values of the two check sums, and the stream written for two
    rows of three pixels. *)
Example png_check_sums :
  Png.crc32 ["1"; "2"; "3"; "4"; "5"; "6"; "7"; "8"; "9"]%byte = 0xCBF43926%N
  /\ Png.crc32 Png.IEND = 0xAE426082%N
  /\ Png.adler32 ["W"; "i"; "k"; "i"; "p"; "e"; "d"; "i"; "a"]%byte
     = 0x11E60398%N.
Proof. repeat split; vm_compute; reflexivity. Qed.

Example png_of_two_rows_of_three :
  option_map Base64.b64encode
    (match Png.encode Sample.rgb_2x3 with
     | inr png => Some png
     | inl _ => None
     end)
  = Some ("iVBORw0KGgoAAAANSUhEUgAAAAMAAAACCAIAAAASFvFNAAAAH0lEQVR4AQEUAOv/"
          ++ "AH9/f39/f39/fwB/f39/f39/f39ZYAjvMIeeYgAAAABJRU5ErkJggg==")
  /\ match Png.encode Sample.rgb_2x3 with
     | inr png => Png.image_size png
     | inl _ => None
     end = Some (3, 2)%nat.
Proof. split; vm_compute; reflexivity. Qed.

(** A stream cut short is no PNG. *)
Example png_cut_short :
  Png.image_size (firstn 60 Sample.rgb_2x2_png) = None
  /\ Png.image_size Png.signature = None.
Proof. split; vm_compute; reflexivity. Qed.





(** ** A renderer that fails *)

Lemma plotlyjs_mode_run (inc : bool) (d : Document) :
  plotlyjs_mode inc d
  = if _is_plotlyjs_included d then (inr (JsBool false), d)
    else if inc then (inr (JsBool true), with_plotlyjs_included true d)
    else (inr JsCdn, d).
Proof.
  unfold plotlyjs_mode. unfold_monad.
  destruct (_is_plotlyjs_included d); [reflexivity|].
  destruct inc; reflexivity.
Qed.

Lemma add_plotly_figure_run (w : World) (f : Figure) (inc : bool)
    (d : Document) :
  add_plotly_figure w (VFigure f) inc d
  = match plotlyjs_mode inc d with
    | (inr mode, d1) =>
        match plotly_to_html w f mode with
        | inl e => (inl e, d1)
        | inr html =>
            (inr tt,
             with_body
               (body d1
                ++ ("<div class=" ++ dq ++ "plotly-figure" ++ dq ++ ">" ++ nl
                    ++ html ++ nl ++ "</div>" ++ nl))
               d1)
        end
    | (inl e, d1) => (inl e, d1)
    end.
Proof.
  cbn [add_plotly_figure]. unfold bind at 1.
  destruct (plotlyjs_mode inc d) as [[e|mode] d1]; [reflexivity|].
  unfold bind, lift.
  destruct (plotly_to_html w f mode); reflexivity.
Qed.

(** C10: with the flag down and the runtime asked for inline, the flag is
    raised before the renderer runs.  If the renderer then raises, the body is
    as it was and the flag stays up, and every later chart is rendered with
    the runtime left out; if it returns, the fragment goes onto the body of the
    document whose flag is already up. *)
Theorem C10_flag_raised_before_rendering (w : World) (f : Figure)
    (d : Document) :
  _is_plotlyjs_included d = false ->
  plotlyjs_mode true d = (inr (JsBool true), with_plotlyjs_included true d)
  /\ (forall e,
        plotly_to_html w f (JsBool true) = inl e ->
        add_plotly_figure w (VFigure f) true d
        = (inl e, with_plotlyjs_included true d)
        /\ body (snd (add_plotly_figure w (VFigure f) true d)) = body d
        /\ _is_plotlyjs_included (snd (add_plotly_figure w (VFigure f) true d))
           = true
        /\ snd (add_plotly_figure w (VFigure f) true d) <> d
        /\ (forall f' inc,
              requested_mode (VFigure f') inc
                (snd (add_plotly_figure w (VFigure f) true d))
              = Some (JsBool false)))
  /\ (forall html,
        plotly_to_html w f (JsBool true) = inr html ->
        add_plotly_figure w (VFigure f) true d
        = (inr tt,
           with_body
             (body d
              ++ ("<div class=" ++ dq ++ "plotly-figure" ++ dq ++ ">" ++ nl
                  ++ html ++ nl ++ "</div>" ++ nl))
             (with_plotlyjs_included true d))).
Proof.
  intros Hflag.
  assert (Hmode : plotlyjs_mode true d
                  = (inr (JsBool true), with_plotlyjs_included true d)).
  { rewrite plotlyjs_mode_run, Hflag. reflexivity. }
  split; [exact Hmode | split].
  - intros e Hfail.
    assert (Hrun : add_plotly_figure w (VFigure f) true d
                   = (inl e, with_plotlyjs_included true d)).
    { rewrite add_plotly_figure_run, Hmode, Hfail. reflexivity. }
    rewrite Hrun. cbn [snd].
    split; [reflexivity|]. split; [reflexivity|]. split; [reflexivity|].
    split.
    + intros Heq. apply (f_equal _is_plotlyjs_included) in Heq.
      cbn in Heq. congruence.
    + intros f' inc. unfold requested_mode. rewrite plotlyjs_mode_run.
      reflexivity.
  - intros html Hok. rewrite add_plotly_figure_run, Hmode, Hok. reflexivity.
Qed.

Lemma C10_flag_raised_before_rendering_witness :
  add_plotly_figure Sample.world_renderer_fails (VFigure (FigureAt 1)) true
    Sample.report
  = (inl (OtherError "ValueError" "invalid figure"),
     with_plotlyjs_included true Sample.report)
  /\ with_plotlyjs_included true Sample.report <> Sample.report.
Proof.
  destruct (C10_flag_raised_before_rendering Sample.world_renderer_fails
              (FigureAt 1) Sample.report eq_refl)
    as (_ & Hfail & _).
  destruct (Hfail (OtherError "ValueError" "invalid figure") eq_refl)
    as (Hrun & _ & _ & Hneq & _).
  split; [exact Hrun|].
  rewrite Hrun in Hneq. exact Hneq.
Defined.

(** ** The runtime goes in once *)

Lemma requested_mode_rule (fig : value) (inc : bool) (d : Document) :
  requested_mode fig inc d
  = if is_figure fig then
      Some (if _is_plotlyjs_included d then JsBool false
            else if inc then JsBool true else JsCdn)
    else None.
Proof.
  destruct fig; cbn [requested_mode is_figure]; try reflexivity.
  rewrite plotlyjs_mode_run.
  destruct (_is_plotlyjs_included d); [reflexivity|]. now destruct inc.
Qed.

Lemma flag_after_call (w : World) (fig : value) (inc : bool) (d : Document) :
  _is_plotlyjs_included (snd (add_plotly_figure w fig inc d))
  = _is_plotlyjs_included d || (is_figure fig && inc).
Proof.
  destruct fig; cbn [is_figure andb];
    try (cbn [add_plotly_figure raise snd]; now rewrite orb_false_r).
  rewrite add_plotly_figure_run, plotlyjs_mode_run.
  destruct (_is_plotlyjs_included d) eqn:Hflag.
  - destruct (plotly_to_html w f (JsBool false)); cbn; exact Hflag.
  - destruct inc.
    + destruct (plotly_to_html w f (JsBool true)); reflexivity.
    + destruct (plotly_to_html w f JsCdn); cbn; exact Hflag.
Qed.

Lemma rises_cons (b : bool) (l : list bool) :
  rises (b :: l) = ((if negb b && hd false l then 1 else 0) + rises l)%nat.
Proof.
  destruct b; [reflexivity|]. destruct l as [|[] l]; reflexivity.
Qed.

Lemma falls_cons (b : bool) (l : list bool) :
  falls (b :: l) = ((if b && negb (hd true l) then 1 else 0) + falls l)%nat.
Proof.
  destruct b; [|reflexivity]. destruct l as [|[] l]; reflexivity.
Qed.

Lemma flags_hd (calls : list chart_call) (d : Document) :
  forall b, hd b (flags calls d) = _is_plotlyjs_included d.
Proof. intros b. destruct calls; reflexivity. Qed.

Lemma flags_cons (w : World) (fig : value) (inc : bool)
    (rest : list chart_call) (d : Document) :
  flags ((w, fig, inc) :: rest) d
  = _is_plotlyjs_included d
    :: flags rest (snd (add_plotly_figure w fig inc d)).
Proof. reflexivity. Qed.

Lemma count_inline_cons (m : option plotlyjs) (l : list (option plotlyjs)) :
  count_inline (m :: l)
  = ((if is_inline m then 1 else 0) + count_inline l)%nat.
Proof.
  unfold count_inline. cbn [filter]. now destruct (is_inline m).
Qed.

(** Once the flag is up it stays up, and no call asks for the runtime. *)
Lemma flag_up_stays (calls : list chart_call) (d : Document) :
  _is_plotlyjs_included d = true ->
  rises (flags calls d) = 0%nat
  /\ falls (flags calls d) = 0%nat
  /\ count_inline (requested_modes calls d) = 0%nat
  /\ (forall i, is_inline (nth i (requested_modes calls d) None) = false).
Proof.
  revert d. induction calls as [|[[w fig] inc] rest IH]; intros d Hflag.
  - cbn. rewrite Hflag. do 3 (split; [reflexivity|]).
    intros [|i]; reflexivity.
  - assert (Hnext : _is_plotlyjs_included
                      (snd (add_plotly_figure w fig inc d)) = true).
    { rewrite flag_after_call, Hflag. reflexivity. }
    destruct (IH _ Hnext) as (Hr & Hf & Hc & Hn).
    rewrite flags_cons, rises_cons, falls_cons, !flags_hd, Hr, Hf, Hflag, Hnext.
    cbn [requested_modes]. rewrite requested_mode_rule, Hflag.
    assert (Hnot : is_inline
                     (if is_figure fig then Some (JsBool false) else None)
                   = false) by now destruct (is_figure fig).
    rewrite count_inline_cons, Hnot, Hc.
    do 3 (split; [reflexivity|]).
    intros [|i]; [exact Hnot | apply Hn].
Qed.

Lemma nth_inline_later (m : option plotlyjs) (l : list (option plotlyjs))
    (o : option nat) :
  is_inline m = false ->
  (forall i, is_inline (nth i l None) = true <-> o = Some i) ->
  forall i, is_inline (nth i (m :: l) None) = true <-> option_map S o = Some i.
Proof.
  intros Hm Hl [|i]; cbn [nth].
  - rewrite Hm. split; [discriminate|]. destruct o; discriminate.
  - rewrite Hl. destruct o as [k|]; cbn [option_map].
    + split; intros [= <-]; reflexivity.
    + split; discriminate.
Qed.

Lemma one_if_some_map (o : option nat) :
  one_if_some (option_map S o) = one_if_some o.
Proof. now destruct o. Qed.

(** With the flag down, the first call that reaches the renderer and asks
    for the runtime is the one that gets it. *)
Lemma flag_down_run (calls : list chart_call) (d : Document) :
  _is_plotlyjs_included d = false ->
  rises (flags calls d) = one_if_some (first_inline calls)
  /\ falls (flags calls d) = 0%nat
  /\ count_inline (requested_modes calls d) = one_if_some (first_inline calls)
  /\ (forall i,
        is_inline (nth i (requested_modes calls d) None) = true
        <-> first_inline calls = Some i).
Proof.
  revert d. induction calls as [|[[w fig] inc] rest IH]; intros d Hflag.
  - cbn. rewrite Hflag. do 3 (split; [reflexivity|]).
    intros [|i]; split; discriminate.
  - pose proof (flag_after_call w fig inc d) as Hnext. rewrite Hflag in Hnext.
    cbn [orb] in Hnext.
    rewrite flags_cons, rises_cons, falls_cons, !flags_hd, Hflag, Hnext.
    cbn [requested_modes first_inline].
    rewrite requested_mode_rule, Hflag, count_inline_cons.
    cbn [negb andb].
    destruct (is_figure fig && inc) eqn:Hboth.
    + apply andb_true_iff in Hboth. destruct Hboth as [Hfig ->].
      rewrite Hfig in *.
      destruct (flag_up_stays rest _ Hnext) as (Hr & Hf & Hc & Hn).
      rewrite Hr, Hf, Hc. cbn [is_inline one_if_some].
      do 3 (split; [reflexivity|]).
      intros [|i]; cbn [nth is_inline].
      * split; reflexivity.
      * rewrite Hn. split; discriminate.
    + destruct (IH _ Hnext) as (Hr & Hf & Hc & Hn).
      assert (Hnot : is_inline
                       (if is_figure fig
                        then Some (if inc then JsBool true else JsCdn)
                        else None) = false).
      { destruct (is_figure fig); [|reflexivity]. cbn in Hboth.
        now rewrite Hboth. }
      rewrite Hnot, Hr, Hf, Hc, one_if_some_map.
      do 3 (split; [reflexivity|]).
      now apply nth_inline_later.
Qed.

Lemma first_inline_all_figures (calls : list chart_call) :
  Forall (fun c : chart_call => is_figure (snd (fst c)) = true) calls ->
  first_inline calls = first_requesting calls.
Proof.
  induction 1 as [|[[w fig] inc] rest Hfig _ IH]; [reflexivity|].
  cbn [first_inline first_requesting]. cbn in Hfig. rewrite Hfig, IH.
  reflexivity.
Qed.

Lemma with_plotlyjs_included_same (d : Document) :
  with_plotlyjs_included (_is_plotlyjs_included d) d = d.
Proof. now destruct d. Qed.

Lemma plotlyjs_mode_by_rule (inc : bool) (d : Document) :
  plotlyjs_mode inc d
  = (inr (mode_by_rule (_is_plotlyjs_included d) inc),
     with_plotlyjs_included (flag_by_rule (_is_plotlyjs_included d) inc) d).
Proof.
  rewrite plotlyjs_mode_run. unfold mode_by_rule, flag_by_rule.
  destruct (_is_plotlyjs_included d) eqn:Hflag.
  - now rewrite <- Hflag, with_plotlyjs_included_same.
  - destruct inc; [reflexivity|].
    now rewrite <- Hflag, with_plotlyjs_included_same.
Qed.

Example charts_requested_modes :
  requested_modes Sample.charts Sample.report
  = [Some JsCdn; Some (JsBool true); Some (JsBool false)]
  /\ flags Sample.charts Sample.report = [false; false; true; true]
  /\ requested_modes Sample.charts_after_bad_call Sample.report
     = [None; Some JsCdn; Some (JsBool true); Some (JsBool false)].
Proof. repeat split. Qed.

(** C2: each call that passes the figure check hands the renderer the
    omit mode if the flag is up, else the inline mode if the caller asked for
    it, raising the flag, else the CDN mode, leaving the flag down.  So over
    any sequence of calls from a document whose flag is down, the flag goes
    up at most once and never comes down, and the renderer is asked for the
    inline runtime at most once: at the first call that gets to the renderer
    and asks for it, which is the first call that asks for it when every call
    passes a figure. *)
Theorem C2_runtime_requested_once (calls : list chart_call) (d : Document) :
  _is_plotlyjs_included d = false ->
  (forall w f inc d',
     plotlyjs_mode inc d'
     = (inr (mode_by_rule (_is_plotlyjs_included d') inc),
        with_plotlyjs_included
          (flag_by_rule (_is_plotlyjs_included d') inc) d')
     /\ requested_mode (VFigure f) inc d'
        = Some (mode_by_rule (_is_plotlyjs_included d') inc)
     /\ _is_plotlyjs_included (snd (add_plotly_figure w (VFigure f) inc d'))
        = flag_by_rule (_is_plotlyjs_included d') inc
     /\ add_plotly_figure w (VFigure f) inc d'
        = match
            plotly_to_html w f (mode_by_rule (_is_plotlyjs_included d') inc)
          with
          | inl e =>
              (inl e,
               with_plotlyjs_included
                 (flag_by_rule (_is_plotlyjs_included d') inc) d')
          | inr html =>
              (inr tt,
               with_body
                 (body d'
                  ++ ("<div class=" ++ dq ++ "plotly-figure" ++ dq ++ ">" ++ nl
                      ++ html ++ nl ++ "</div>" ++ nl))
                 (with_plotlyjs_included
                    (flag_by_rule (_is_plotlyjs_included d') inc) d'))
          end)
  /\ (rises (flags calls d) <= 1)%nat
  /\ falls (flags calls d) = 0%nat
  /\ (count_inline (requested_modes calls d) <= 1)%nat
  /\ (forall i,
        is_inline (nth i (requested_modes calls d) None) = true
        <-> first_inline calls = Some i)
  /\ (Forall (fun c : chart_call => is_figure (snd (fst c)) = true) calls ->
      forall i,
        is_inline (nth i (requested_modes calls d) None) = true
        <-> first_requesting calls = Some i).
Proof.
  intros Hflag.
  destruct (flag_down_run calls d Hflag) as (Hr & Hf & Hc & Hn).
  split; [|split; [|split; [|split; [|split]]]].
  - intros w f inc d'.
    split; [apply plotlyjs_mode_by_rule|].
    split.
    { cbn [requested_mode]. now rewrite plotlyjs_mode_by_rule. }
    split.
    { rewrite flag_after_call. unfold flag_by_rule. cbn [is_figure andb].
      now destruct (_is_plotlyjs_included d'). }
    rewrite add_plotly_figure_run, plotlyjs_mode_by_rule.
    destruct (plotly_to_html w f (mode_by_rule (_is_plotlyjs_included d') inc));
      reflexivity.
  - rewrite Hr. destruct (first_inline calls); cbn [one_if_some]; lia.
  - exact Hf.
  - rewrite Hc. destruct (first_inline calls); cbn [one_if_some]; lia.
  - exact Hn.
  - intros Hall i. rewrite <- (first_inline_all_figures calls Hall). apply Hn.
Qed.

Lemma C2_runtime_requested_once_witness :
  (rises (flags Sample.charts Sample.report) <= 1)%nat
  /\ falls (flags Sample.charts Sample.report) = 0%nat
  /\ (count_inline (requested_modes Sample.charts Sample.report) <= 1)%nat
  /\ (forall i,
        is_inline (nth i (requested_modes Sample.charts Sample.report) None)
        = true
        <-> first_inline Sample.charts = Some i).
Proof.
  destruct (C2_runtime_requested_once Sample.charts Sample.report eq_refl)
    as (_ & Hr & Hf & Hc & Hn & _).
  exact (conj Hr (conj Hf (conj Hc Hn))).
Defined.

(** * Further properties of the class *)

(** ** One call *)

Lemma add_plotly_figure_by_rule (w : World) (f : Figure) (inc : bool)
    (d : Document) :
  add_plotly_figure w (VFigure f) inc d
  = match plotly_to_html w f (mode_by_rule (_is_plotlyjs_included d) inc) with
    | inl e =>
        (inl e,
         with_plotlyjs_included (flag_by_rule (_is_plotlyjs_included d) inc) d)
    | inr html =>
        (inr tt,
         with_body
           (body d
            ++ ("<div class=" ++ dq ++ "plotly-figure" ++ dq ++ ">" ++ nl
                ++ html ++ nl ++ "</div>" ++ nl))
           (with_plotlyjs_included
              (flag_by_rule (_is_plotlyjs_included d) inc) d))
    end.
Proof.
  rewrite add_plotly_figure_run, plotlyjs_mode_by_rule.
  destruct (plotly_to_html w f (mode_by_rule (_is_plotlyjs_included d) inc));
    reflexivity.
Qed.

Lemma ends_line_cons (c : ascii) (s : string) :
  ends_line s = true -> ends_line (String c s) = true.
Proof. destruct s; [discriminate | trivial]. Qed.

Lemma ends_line_app (a b : string) :
  ends_line b = true -> ends_line (a ++ b) = true.
Proof.
  intros H. induction a as [|c a IH]; [exact H|].
  cbn [append]. now apply ends_line_cons.
Qed.

Lemma opens_tag_app (a b : string) :
  opens_tag a = true -> opens_tag (a ++ b) = true.
Proof. destruct a as [|c a]; [discriminate | trivial]. Qed.

Ltac fragment_parts :=
  first [reflexivity | repeat apply ends_line_app; reflexivity].

Ltac fragment_shape := split; fragment_parts.

Lemma img_tag_format_shape (src : string) (ttl : option string)
    (h wd : option dim) (pix : bool) :
  opens_tag (img_tag_format src ttl h wd pix) = true
  /\ ends_line (img_tag_format src ttl h wd pix) = true.
Proof. unfold img_tag_format. fragment_shape. Qed.

Lemma run_effect_cases (w : World) (c : call) : effect w c.
Proof.
  destruct c as [hdr lvl al | txt sz ind al | | | df | image ttl h wd pix
                | image_link ttl h wd pix | fig inc | css | t | path |
                | src ttl h wd pix | image | ].
  - eapply effect_append; [| |intros d; reflexivity]; fragment_parts.
  - eapply effect_append; [| |intros d; reflexivity]; fragment_parts.
  - eapply effect_append; [| |intros d; reflexivity]; fragment_parts.
  - eapply effect_append; [| |intros d; reflexivity]; fragment_parts.
  - destruct df; try (apply effect_none; intros d; reflexivity).
    cbn [run add_table]. unfold bind, lift.
    destruct (df_to_html w df) as [e|html] eqn:Hhtml.
    + apply effect_none. intros d. cbn [run add_table]. unfold bind, lift.
      now rewrite Hhtml.
    + eapply effect_append;
        [| |intros d; cbn [run add_table]; unfold bind, lift;
            rewrite Hhtml; reflexivity]; fragment_parts.
  - destruct (_encode_image w image) as [e|b64] eqn:Henc.
    + apply effect_none. intros d. cbn [run]. unfold add_image, bind, lift.
      now rewrite Henc.
    + eapply effect_append;
        [apply img_tag_format_shape | apply img_tag_format_shape |].
      intros d. cbn [run]. unfold add_image, bind, lift. rewrite Henc.
      apply add_image_tag_format.
  - destruct image_link;
      try (apply effect_none; intros d; reflexivity);
      (eapply effect_append;
         [apply img_tag_format_shape | apply img_tag_format_shape |];
       intros d; apply add_image_tag_format).
  - destruct fig; try (apply effect_none; intros d; reflexivity).
    now apply (effect_chart w _ f inc).
  - apply (effect_style w _ css); [now left | intros d; reflexivity].
  - now apply (effect_title w _ t).
  - apply effect_none. intros d. cbn [run]. unfold write. unfold_monad.
    now destruct (write_text w path (__str__ d)).
  - apply effect_none. intros d. reflexivity.
  - eapply effect_append;
      [apply img_tag_format_shape | apply img_tag_format_shape |].
    intros d. apply add_image_tag_format.
  - apply effect_none. intros d. cbn [run]. unfold_monad.
    now destruct (_encode_image w image).
  - cbn [run]. unfold _set_default_style. unfold_monad.
    destruct (read_text w (style_filepath w)) as [e|css] eqn:Hread.
    + apply effect_none. intros d. cbn [run].
      unfold _set_default_style. unfold_monad. now rewrite Hread.
    + apply (effect_style w _ css); [now right|]. intros d. cbn [run].
      unfold _set_default_style. unfold_monad. now rewrite Hread.
Qed.

(** X1: a call that raises leaves the document as it was, with one
    exception: [add_plotly_figure] asked for the inline runtime on a document
    whose flag is down, where the renderer raised; that call leaves the flag
    up and nothing else changed. *)
Theorem X1_failure_leaves_document (w : World) (c : call) (d : Document)
    (e : exn) :
  fst (run w c d) = inl e ->
  snd (run w c d) = d
  \/ (exists f,
        c = Add_plotly_figure (VFigure f) true
        /\ _is_plotlyjs_included d = false
        /\ plotly_to_html w f (JsBool true) = inl e
        /\ snd (run w c d) = with_plotlyjs_included true d).
Proof.
  intros Hfail.
  destruct (run_effect_cases w c) as [Hnone | frag _ _ Happ | f inc -> | t ->
                                     | css _ Hstyle].
  - left. apply Hnone.
  - rewrite Happ in Hfail. discriminate Hfail.
  - cbn [run] in *. rewrite add_plotly_figure_by_rule in *.
    unfold mode_by_rule, flag_by_rule in *.
    destruct (_is_plotlyjs_included d) eqn:Hflag.
    + destruct (plotly_to_html w f (JsBool false)); [|discriminate Hfail].
      left. cbn [snd]. rewrite <- Hflag. apply with_plotlyjs_included_same.
    + destruct inc.
      * destruct (plotly_to_html w f (JsBool true)) as [e'|html] eqn:Hhtml;
          [|discriminate Hfail].
        right. exists f. cbn [fst] in Hfail. injection Hfail as ->.
        now repeat split.
      * destruct (plotly_to_html w f JsCdn); [|discriminate Hfail].
        left. cbn [snd]. rewrite <- Hflag. apply with_plotlyjs_included_same.
  - discriminate Hfail.
  - rewrite Hstyle in Hfail. discriminate Hfail.
Qed.

Lemma X1_failure_leaves_document_witness :
  snd (run Sample.world_no_files
         (Add_image (VPath "missing.png") None None None false) Sample.report)
  = Sample.report
  \/ (exists f,
        Add_image (VPath "missing.png") None None None false
        = Add_plotly_figure (VFigure f) true
        /\ _is_plotlyjs_included Sample.report = false
        /\ plotly_to_html Sample.world_no_files f (JsBool true)
           = inl (OSError "No such file or directory")
        /\ snd (run Sample.world_no_files
                  (Add_image (VPath "missing.png") None None None false)
                  Sample.report)
           = with_plotlyjs_included true Sample.report).
Proof.
  apply (X1_failure_leaves_document Sample.world_no_files
           (Add_image (VPath "missing.png") None None None false)
           Sample.report (OSError "No such file or directory")).
  reflexivity.
Defined.

(** ** Title, style and flag over a run *)

Lemma run_title_other (w : World) (c : call) (d : Document) :
  (forall t, c <> Set_title t) -> title (snd (run w c d)) = title d.
Proof.
  intros Hc.
  destruct (run_effect_cases w c) as [Hnone | frag _ _ Happ | f inc -> | t ->
                                     | css _ Hstyle].
  - now rewrite Hnone.
  - now rewrite Happ.
  - cbn [run]. rewrite add_plotly_figure_by_rule.
    now destruct (plotly_to_html w f _).
  - now destruct (Hc t).
  - now rewrite Hstyle.
Qed.

Lemma run_style_other (w : World) (c : call) (d : Document) :
  (forall css, c <> Set_style css) -> c <> Set_default_style ->
  style (snd (run w c d)) = style d.
Proof.
  intros Hc Hc'.
  destruct (run_effect_cases w c) as [Hnone | frag _ _ Happ | f inc -> | t ->
                                     | css Hwhich Hstyle].
  - now rewrite Hnone.
  - now rewrite Happ.
  - cbn [run]. rewrite add_plotly_figure_by_rule.
    now destruct (plotly_to_html w f _).
  - reflexivity.
  - destruct Hwhich as [-> | [-> _]]; [now destruct (Hc css) | now destruct Hc'].
Qed.

Lemma run_flag_other (w : World) (c : call) (d : Document) :
  (forall fig inc, c <> Add_plotly_figure fig inc) ->
  _is_plotlyjs_included (snd (run w c d)) = _is_plotlyjs_included d.
Proof.
  intros Hc.
  destruct (run_effect_cases w c) as [Hnone | frag _ _ Happ | f inc -> | t ->
                                     | css _ Hstyle].
  - now rewrite Hnone.
  - now rewrite Happ.
  - now destruct (Hc (VFigure f) inc).
  - reflexivity.
  - now rewrite Hstyle.
Qed.

Lemma run_flag (w : World) (c : call) (d : Document) :
  _is_plotlyjs_included (snd (run w c d))
  = match c with
    | Add_plotly_figure fig inc =>
        _is_plotlyjs_included d || (is_figure fig && inc)
    | _ => _is_plotlyjs_included d
    end.
Proof.
  destruct c; try (apply run_flag_other; intros fig' inc'; discriminate).
  apply flag_after_call.
Qed.

Lemma run_all_title (steps : list (World * call)) (d : Document) :
  title (run_all steps d) = last_title steps (title d).
Proof.
  revert d. induction steps as [|[w c] rest IH]; intros d; [reflexivity|].
  cbn [run_all]. rewrite IH.
  destruct c; cbn [last_title]; try reflexivity;
    rewrite run_title_other; try reflexivity; intros t'; discriminate.
Qed.

Lemma run_all_style (steps : list (World * call)) (d : Document) :
  style (run_all steps d) = last_style steps (style d).
Proof.
  revert d. induction steps as [|[w c] rest IH]; intros d; [reflexivity|].
  cbn [run_all]. rewrite IH.
  destruct c; cbn [last_style]; try reflexivity;
    try (rewrite run_style_other; try reflexivity;
         try (intros css'; discriminate); discriminate).
  cbn [run]. unfold _set_default_style. unfold_monad.
  now destruct (read_text w (style_filepath w)).
Qed.

Lemma run_all_flag_up (steps : list (World * call)) (d : Document) :
  _is_plotlyjs_included d = true ->
  _is_plotlyjs_included (run_all steps d) = true.
Proof.
  revert d. induction steps as [|[w c] rest IH]; intros d Hflag; [exact Hflag|].
  cbn [run_all]. apply IH. rewrite run_flag, Hflag. now destruct c.
Qed.

(** X2: after any run of calls the title is the argument of the last
    [set_title], or the title the run started with; the style is the argument
    of the last [set_style] or the sheet the last successful
    [_set_default_style] read, or the style the run started with.  No other
    call, raising or not, touches either. *)
Theorem X2_last_setter_wins (steps : list (World * call)) (d : Document) :
  title (run_all steps d) = last_title steps (title d)
  /\ style (run_all steps d) = last_style steps (style d).
Proof.
  split; [apply run_all_title | apply run_all_style].
Qed.

Example session_title_style :
  title (run_all Sample.session Sample.fresh) = "Report"
  /\ style (run_all Sample.session Sample.fresh) = "p { color: black }".
Proof. split; reflexivity. Qed.

(** X3: only [add_plotly_figure] changes the flag, and only upwards: a call
    that changes it is a chart call on a figure asking for the inline runtime
    with the flag down; so once up, the flag is up after any run of calls. *)
Theorem X3_flag_only_rises (w : World) (c : call) (d : Document) :
  (_is_plotlyjs_included (snd (run w c d)) <> _is_plotlyjs_included d ->
   exists f, c = Add_plotly_figure (VFigure f) true
             /\ _is_plotlyjs_included d = false
             /\ _is_plotlyjs_included (snd (run w c d)) = true)
  /\ (forall steps,
        _is_plotlyjs_included d = true ->
        _is_plotlyjs_included (run_all steps d) = true).
Proof.
  split; [|intros steps; apply run_all_flag_up].
  rewrite run_flag. destruct c; try (intros H; now destruct H).
  destruct (_is_plotlyjs_included d); [intros H; now destruct H|].
  destruct fig; try (intros H; now destruct H).
  destruct include_plotlyjs; [|intros H; now destruct H].
  intros _. now exists f.
Qed.

Lemma X3_flag_only_rises_witness :
  exists f,
    Add_plotly_figure (VFigure (FigureAt 2)) true
    = Add_plotly_figure (VFigure f) true
    /\ _is_plotlyjs_included Sample.report = false
    /\ _is_plotlyjs_included
         (snd (run Sample.world_renderer_fails
                 (Add_plotly_figure (VFigure (FigureAt 2)) true)
                 Sample.report)) = true.
Proof.
  apply (X3_flag_only_rises Sample.world_renderer_fails
           (Add_plotly_figure (VFigure (FigureAt 2)) true) Sample.report).
  discriminate.
Defined.

(** ** The shape of the body *)

Lemma body_shaped_app (b frag : string) :
  body_shaped b = true -> opens_tag frag = true -> ends_line frag = true ->
  body_shaped (b ++ frag) = true.
Proof.
  intros Hb Ho He. destruct b as [|c b].
  - cbn [append]. unfold body_shaped. rewrite Ho, He. now destruct frag.
  - unfold body_shaped in *. apply andb_true_iff in Hb. destruct Hb as [Hb _].
    change (opens_tag (String c b ++ frag) && ends_line (String c b ++ frag)
            = true).
    rewrite (opens_tag_app _ frag Hb), (ends_line_app _ frag He). reflexivity.
Qed.

Lemma chart_fragment_shape (html : string) :
  opens_tag ("<div class=" ++ dq ++ "plotly-figure" ++ dq ++ ">" ++ nl
             ++ html ++ nl ++ "</div>" ++ nl) = true
  /\ ends_line ("<div class=" ++ dq ++ "plotly-figure" ++ dq ++ ">" ++ nl
                ++ html ++ nl ++ "</div>" ++ nl) = true.
Proof. fragment_shape. Qed.

Lemma run_body_shaped (w : World) (c : call) (d : Document) :
  body_shaped (body d) = true -> body_shaped (body (snd (run w c d))) = true.
Proof.
  intros Hb.
  destruct (run_effect_cases w c) as [Hnone | frag Ho He Happ | f inc -> | t ->
                                     | css _ Hstyle].
  - now rewrite Hnone.
  - rewrite Happ. now apply body_shaped_app.
  - cbn [run]. rewrite add_plotly_figure_by_rule.
    destruct (plotly_to_html w f _) as [e|html]; [exact Hb|].
    destruct (chart_fragment_shape html) as [Ho He].
    now apply body_shaped_app.
  - exact Hb.
  - now rewrite Hstyle.
Qed.

Lemma init_body (class_name : string) (w : World) (d : Document) :
  __init__ class_name w = inr d -> body d = "".
Proof.
  unfold __init__, _set_default_style. unfold_monad.
  destruct (read_text w (style_filepath w)); intros H;
    [discriminate H | injection H as <-; reflexivity].
Qed.

(** X4: the body of every document a program can reach is empty, or
    opens with ['<'] and ends with a newline: each fragment any call appends
    opens a tag and ends its line, whatever text the caller passes. *)
Theorem X4_body_opens_tag_ends_line (d : Document) :
  reachable d ->
  body_shaped (body d) = true
  /\ (body d = ""
      \/ (exists rest, body d = "<" ++ rest) /\ ends_line (body d) = true).
Proof.
  intros Hreach.
  assert (Hshape : body_shaped (body d) = true).
  { induction Hreach as [cls w d Hinit | w c d _ IH].
    - now rewrite (init_body cls w d Hinit).
    - now apply run_body_shaped. }
  split; [exact Hshape|].
  destruct (body d) as [|c b]; [now left | right].
  unfold body_shaped in Hshape. apply andb_true_iff in Hshape.
  destruct Hshape as [Ho He]. split; [|exact He].
  exists b. cbn in Ho. apply Ascii.eqb_eq in Ho. now subst c.
Qed.

Lemma X4_body_opens_tag_ends_line_witness :
  body_shaped (body (run_all Sample.session Sample.fresh)) = true
  /\ (body (run_all Sample.session Sample.fresh) = ""
      \/ (exists rest, body (run_all Sample.session Sample.fresh) = "<" ++ rest)
         /\ ends_line (body (run_all Sample.session Sample.fresh)) = true).
Proof.
  apply (X4_body_opens_tag_ends_line (run_all Sample.session Sample.fresh)).
  unfold Sample.session. cbn [run_all].
  do 10 apply reach_call.
  apply (reach_init HTMLDocument_name Sample.world). reflexivity.
Defined.

(** ** Rendering after an append *)

(** X5: after a successful append the rendering is the rendering before
    with a non-empty fragment put in just before the closing
    [</body>] and [</html>] lines; everything in front stays as it was. *)
Theorem X5_append_lands_before_tail (w : World) (c : call) (d : Document) :
  is_append c = true ->
  fst (run w c d) = inr tt ->
  exists front frag,
    frag <> ""
    /\ __str__ d = front ++ render_tail
    /\ __str__ (snd (run w c d)) = front ++ frag ++ render_tail.
Proof.
  intros Happ Hok.
  destruct (append_grows w c d Happ Hok) as (frag & Hne & Hbody).
  assert (Ht : title (snd (run w c d)) = title d).
  { apply run_title_other. intros t ->. discriminate Happ. }
  assert (Hs : style (snd (run w c d)) = style d).
  { apply run_style_other; [intros css ->|intros ->]; discriminate Happ. }
  exists ("<!DOCTYPE html>" ++ nl
          ++ "<html lang=" ++ dq ++ "en" ++ dq ++ ">" ++ nl
          ++ "<head>" ++ nl
          ++ "<meta charset=" ++ dq ++ "UTF-8" ++ dq ++ ">" ++ nl
          ++ "<title>" ++ title d ++ "</title>" ++ nl
          ++ "<style type=" ++ dq ++ "text/css" ++ dq ++ ">" ++ nl
          ++ style d ++ "</style>" ++ nl
          ++ head d
          ++ "</head>" ++ nl
          ++ "<body>" ++ nl
          ++ body d), frag.
  split; [exact Hne|].
  unfold __str__, render_tail. rewrite Ht, Hs, run_head, Hbody.
  split; str_norm; reflexivity.
Qed.

Lemma X5_append_lands_before_tail_witness :
  exists front frag,
    frag <> ""
    /\ __str__ Sample.report = front ++ render_tail
    /\ __str__ (snd (run Sample.world (Add_table (VDataFrame (DataFrameAt 1)))
                       Sample.report))
       = front ++ frag ++ render_tail.
Proof.
  apply (X5_append_lands_before_tail Sample.world
           (Add_table (VDataFrame (DataFrameAt 1))) Sample.report);
    reflexivity.
Defined.

(** ** What the body depends on *)

Lemma run_ignores_title_style (w : World) (c : call) (d1 d2 : Document) :
  body d1 = body d2 ->
  _is_plotlyjs_included d1 = _is_plotlyjs_included d2 ->
  body (snd (run w c d1)) = body (snd (run w c d2))
  /\ _is_plotlyjs_included (snd (run w c d1))
     = _is_plotlyjs_included (snd (run w c d2)).
Proof.
  intros Hb Hf. split; [|now rewrite !run_flag, Hf].
  destruct (run_effect_cases w c) as [Hnone | frag _ _ Happ | f inc -> | t ->
                                     | css _ Hstyle].
  - now rewrite !Hnone.
  - rewrite !Happ. cbn. now rewrite Hb.
  - cbn [run]. rewrite !add_plotly_figure_by_rule, Hf.
    destruct (plotly_to_html w f _); cbn; now rewrite Hb.
  - exact Hb.
  - rewrite !Hstyle. exact Hb.
Qed.

(** X7: the body and the flag a call leaves depend on the body and the
    flag it found and on nothing else of the document: title, style and head
    never reach the body. *)
Theorem X7_body_ignores_title_style (w : World) (c : call)
    (d1 d2 : Document) :
  body d1 = body d2 ->
  _is_plotlyjs_included d1 = _is_plotlyjs_included d2 ->
  body (snd (run w c d1)) = body (snd (run w c d2))
  /\ _is_plotlyjs_included (snd (run w c d1))
     = _is_plotlyjs_included (snd (run w c d2)).
Proof. apply run_ignores_title_style. Qed.

Lemma X7_body_ignores_title_style_witness :
  body (snd (run Sample.world (Add_plotly_figure (VFigure (FigureAt 1)) true)
               Sample.report))
  = body (snd (run Sample.world
                 (Add_plotly_figure (VFigure (FigureAt 1)) true)
                 (with_style "h2 { color: red }"
                    (with_title "Other" Sample.report))))
  /\ _is_plotlyjs_included
       (snd (run Sample.world (Add_plotly_figure (VFigure (FigureAt 1)) true)
               Sample.report))
     = _is_plotlyjs_included
         (snd (run Sample.world
                 (Add_plotly_figure (VFigure (FigureAt 1)) true)
                 (with_style "h2 { color: red }"
                    (with_title "Other" Sample.report)))).
Proof.
  apply (X7_body_ignores_title_style Sample.world
           (Add_plotly_figure (VFigure (FigureAt 1)) true) Sample.report
           (with_style "h2 { color: red }" (with_title "Other" Sample.report)));
    reflexivity.
Defined.

(** ** Charts among other calls *)

Lemma requested_by_inline (c : call) (d : Document) :
  is_inline (requested_by c d) = true ->
  _is_plotlyjs_included d = false
  /\ exists f, c = Add_plotly_figure (VFigure f) true.
Proof.
  destruct c; try discriminate. cbn [requested_by].
  rewrite requested_mode_rule.
  destruct fig; try discriminate. cbn [is_figure].
  destruct (_is_plotlyjs_included d); [discriminate|].
  destruct include_plotlyjs; [|discriminate].
  intros _. split; [reflexivity | now exists f].
Qed.

Lemma requests_at_most_once (steps : list (World * call)) (d : Document) :
  (count_inline (requests steps d)
   <= if _is_plotlyjs_included d then 0 else 1)%nat.
Proof.
  revert d. induction steps as [|[w c] rest IH]; intros d.
  - cbn. destruct (_is_plotlyjs_included d); lia.
  - cbn [requests]. rewrite count_inline_cons.
    specialize (IH (snd (run w c d))).
    destruct (is_inline (requested_by c d)) eqn:Hin.
    + destruct (requested_by_inline c d Hin) as (Hflag & f & ->).
      rewrite Hflag. rewrite run_flag, Hflag in IH.
      cbn [orb andb is_figure] in IH. lia.
    + rewrite run_flag in IH.
      destruct (_is_plotlyjs_included d).
      * assert (Hup : match c with
                      | Add_plotly_figure fig inc => true || (is_figure fig && inc)
                      | _ => true
                      end = true) by now destruct c.
        rewrite Hup in IH. lia.
      * destruct (match c with
                  | Add_plotly_figure fig inc => false || (is_figure fig && inc)
                  | _ => false
                  end); lia.
Qed.

Lemma chart_rendered_with (w : World) (f : Figure) (inc : bool)
    (d : Document) :
  (fst (add_plotly_figure w (VFigure f) inc d),
   body (snd (add_plotly_figure w (VFigure f) inc d)))
  = rendered_with w f (mode_by_rule (_is_plotlyjs_included d) inc) d.
Proof.
  rewrite add_plotly_figure_by_rule. unfold rendered_with.
  now destruct (plotly_to_html w f (mode_by_rule (_is_plotlyjs_included d) inc)).
Qed.

Lemma requested_mode_by_rule (f : Figure) (inc : bool) (d : Document) :
  requested_mode (VFigure f) inc d
  = Some (mode_by_rule (_is_plotlyjs_included d) inc).
Proof. cbn [requested_mode]. now rewrite plotlyjs_mode_by_rule. Qed.

Lemma requests_nth (steps : list (World * call)) (d : Document) (i : nat)
    (w : World) (c : call) :
  nth_error steps i = Some (w, c) ->
  nth i (requests steps d) None
  = requested_by c (run_all (firstn i steps) d).
Proof.
  revert d i. induction steps as [|[w0 c0] rest IH]; intros d [|i] Hnth;
    try discriminate Hnth; cbn [nth_error] in Hnth.
  - now injection Hnth as -> ->.
  - cbn [requests nth firstn run_all]. now apply IH.
Qed.

Lemma renderer_not_consulted (r : Figure -> plotlyjs -> result string)
    (w : World) (c : call) (d : Document) :
  (forall f inc, c <> Add_plotly_figure (VFigure f) inc) ->
  run (with_renderer r w) c d = run w c d.
Proof.
  intros Hc. destruct c; try reflexivity.
  destruct fig; try reflexivity. now destruct (Hc f include_plotlyjs).
Qed.

(** X14: however chart calls are mixed with other calls, raising or not,
    and whatever the document a run starts from, the renderer is handed the
    inline mode at most once in the run, and never if the flag was up at its
    start.  The modes counted are those the renderer is handed: a chart call
    on a figure ends as the renderer's answer in the mode listed for it makes
    it end, and any other call ends the same whatever the renderer is. *)
Theorem X14_inline_once_in_any_run (steps : list (World * call))
    (d : Document) :
  (count_inline (requests steps d) <= 1)%nat
  /\ (_is_plotlyjs_included d = true ->
      count_inline (requests steps d) = 0%nat)
  /\ (forall i w f inc,
        nth_error steps i = Some (w, Add_plotly_figure (VFigure f) inc) ->
        exists m,
          nth i (requests steps d) None = Some m
          /\ (fst (run w (Add_plotly_figure (VFigure f) inc)
                     (run_all (firstn i steps) d)),
              body (snd (run w (Add_plotly_figure (VFigure f) inc)
                           (run_all (firstn i steps) d))))
             = rendered_with w f m (run_all (firstn i steps) d))
  /\ (forall i w c,
        nth_error steps i = Some (w, c) ->
        (forall f inc, c <> Add_plotly_figure (VFigure f) inc) ->
        nth i (requests steps d) None = None
        /\ forall r d', run (with_renderer r w) c d' = run w c d').
Proof.
  pose proof (requests_at_most_once steps d) as H.
  split; [|split; [|split]].
  - destruct (_is_plotlyjs_included d); lia.
  - intros Hflag. rewrite Hflag in H. lia.
  - intros i w f inc Hnth.
    exists (mode_by_rule
              (_is_plotlyjs_included (run_all (firstn i steps) d)) inc).
    split.
    + rewrite (requests_nth steps d i w _ Hnth). cbn [requested_by].
      apply requested_mode_by_rule.
    + cbn [run]. apply chart_rendered_with.
  - intros i w c Hnth Hc. split.
    + rewrite (requests_nth steps d i w c Hnth).
      destruct c; try reflexivity. cbn [requested_by].
      destruct fig; try reflexivity. now destruct (Hc f include_plotlyjs).
    + intros r d'. now apply renderer_not_consulted.
Qed.

Example session_requests :
  requests Sample.session Sample.fresh
  = [None; None; Some JsCdn; None; Some (JsBool true); None; None;
     Some (JsBool false); None; None].
Proof. reflexivity. Qed.

(** ** The mode of every chart of a sequence *)

Lemma expected_mode_later (k : option nat) (i : nat) :
  expected_mode (option_map S k) (S i) = expected_mode k i.
Proof. destruct k; reflexivity. Qed.

Lemma expected_mode_first (k : option nat) :
  expected_mode (option_map S k) 0 = JsCdn.
Proof. destruct k; reflexivity. Qed.

Lemma modes_flag_up (calls : list chart_call) (d : Document) :
  _is_plotlyjs_included d = true ->
  forall i w fig inc,
    nth_error calls i = Some (w, fig, inc) ->
    nth i (requested_modes calls d) None
    = if is_figure fig then Some (JsBool false) else None.
Proof.
  revert d. induction calls as [|[[w0 fig0] inc0] rest IH]; intros d Hflag.
  - intros [|i]; discriminate.
  - intros [|i] w fig inc Hnth; cbn [nth_error] in Hnth.
    + injection Hnth as -> -> ->. cbn [requested_modes nth].
      now rewrite requested_mode_rule, Hflag.
    + cbn [requested_modes nth]. apply (IH _) with (w := w) (inc := inc).
      * rewrite flag_after_call, Hflag. reflexivity.
      * exact Hnth.
Qed.

Lemma modes_of_charts (calls : list chart_call) (d : Document) :
  _is_plotlyjs_included d = false ->
  forall i w fig inc,
    nth_error calls i = Some (w, fig, inc) ->
    nth i (requested_modes calls d) None
    = if is_figure fig
      then Some (expected_mode (first_inline calls) i)
      else None.
Proof.
  revert d. induction calls as [|[[w0 fig0] inc0] rest IH]; intros d Hflag.
  - intros [|i]; discriminate.
  - intros [|i] w fig inc Hnth; cbn [nth_error] in Hnth.
    + injection Hnth as -> -> ->. cbn [requested_modes nth first_inline].
      rewrite requested_mode_rule, Hflag.
      destruct (is_figure fig); [|reflexivity]. cbn [andb].
      destruct inc; [reflexivity|]. now rewrite expected_mode_first.
    + cbn [requested_modes nth first_inline].
      pose proof (flag_after_call w0 fig0 inc0 d) as Hnext.
      rewrite Hflag in Hnext. cbn [orb] in Hnext.
      destruct (is_figure fig0 && inc0) eqn:Hboth.
      * rewrite (modes_flag_up rest _ Hnext i w fig inc Hnth). reflexivity.
      * rewrite expected_mode_later. now apply (IH _ Hnext i w fig inc).
Qed.

Lemma requested_modes_nth (calls : list chart_call) (d : Document) (i : nat)
    (w : World) (fig : value) (inc : bool) :
  nth_error calls i = Some (w, fig, inc) ->
  nth i (requested_modes calls d) None
  = requested_mode fig inc (after_charts (firstn i calls) d).
Proof.
  revert d i. induction calls as [|[[w0 fig0] inc0] rest IH]; intros d [|i] Hnth;
    try discriminate Hnth; cbn [nth_error] in Hnth.
  - now injection Hnth as -> -> ->.
  - cbn [requested_modes nth firstn after_charts]. now apply IH.
Qed.

(** X11: in a sequence of chart calls from a document whose flag is down,
    every call that passes a figure before the first one asking for the
    inline runtime hands the renderer the CDN mode, that one the inline mode,
    and every one after it the omit mode, whatever it asks for: the call ends
    as the renderer's answer in that mode makes it end.  A call that passes
    no figure raises and ends the same whatever the renderer is. *)
Theorem X11_mode_of_every_chart (calls : list chart_call) (d : Document) :
  _is_plotlyjs_included d = false ->
  forall i w fig inc,
    nth_error calls i = Some (w, fig, inc) ->
    (forall f,
       fig = VFigure f ->
       nth i (requested_modes calls d) None
       = Some (expected_mode (first_inline calls) i)
       /\ (fst (add_plotly_figure w fig inc (after_charts (firstn i calls) d)),
           body (snd (add_plotly_figure w fig inc
                        (after_charts (firstn i calls) d))))
          = rendered_with w f (expected_mode (first_inline calls) i)
              (after_charts (firstn i calls) d))
    /\ (is_figure fig = false ->
        nth i (requested_modes calls d) None = None
        /\ forall r,
             add_plotly_figure (with_renderer r w) fig inc
               (after_charts (firstn i calls) d)
             = add_plotly_figure w fig inc (after_charts (firstn i calls) d)).
Proof.
  intros Hflag i w fig inc Hnth.
  pose proof (modes_of_charts calls d Hflag i w fig inc Hnth) as Hmode.
  split.
  - intros f ->. cbn [is_figure] in Hmode. split; [exact Hmode|].
    rewrite (requested_modes_nth calls d i w _ inc Hnth) in Hmode.
    rewrite requested_mode_by_rule in Hmode. injection Hmode as <-.
    apply chart_rendered_with.
  - intros Hfig. rewrite Hfig in Hmode. split; [exact Hmode|].
    intros r. destruct fig; try reflexivity. discriminate Hfig.
Qed.

Lemma X11_mode_of_every_chart_witness :
  (forall f,
     VFigure (FigureAt 3) = VFigure f ->
     nth 2 (requested_modes Sample.charts Sample.report) None
     = Some (expected_mode (first_inline Sample.charts) 2)
     /\ (fst (add_plotly_figure Sample.world (VFigure (FigureAt 3)) true
                (after_charts (firstn 2 Sample.charts) Sample.report)),
         body (snd (add_plotly_figure Sample.world (VFigure (FigureAt 3)) true
                      (after_charts (firstn 2 Sample.charts) Sample.report))))
        = rendered_with Sample.world f
            (expected_mode (first_inline Sample.charts) 2)
            (after_charts (firstn 2 Sample.charts) Sample.report))
  /\ (is_figure (VFigure (FigureAt 3)) = false ->
      nth 2 (requested_modes Sample.charts Sample.report) None = None
      /\ forall r,
           add_plotly_figure (with_renderer r Sample.world)
             (VFigure (FigureAt 3)) true
             (after_charts (firstn 2 Sample.charts) Sample.report)
           = add_plotly_figure Sample.world (VFigure (FigureAt 3)) true
               (after_charts (firstn 2 Sample.charts) Sample.report)).
Proof.
  apply (X11_mode_of_every_chart Sample.charts Sample.report eq_refl 2
           Sample.world (VFigure (FigureAt 3)) true eq_refl).
Defined.

(** The third chart of the sample asks for the runtime and is rendered
    without it, the second having brought it. *)
Example third_chart_rendered_without_runtime :
  rendered_with Sample.world (FigureAt 3)
    (expected_mode (first_inline Sample.charts) 2)
    (after_charts (firstn 2 Sample.charts) Sample.report)
  = (inr tt,
     body (after_charts (firstn 2 Sample.charts) Sample.report)
     ++ "<div class=" ++ dq ++ "plotly-figure" ++ dq ++ ">" ++ nl
     ++ "<div>chart</div>" ++ nl ++ "</div>" ++ nl).
Proof. reflexivity. Qed.

Lemma X14_inline_once_in_any_run_witness :
  count_inline
    (requests Sample.session (with_plotlyjs_included true Sample.fresh))
  = 0%nat.
Proof.
  apply (X14_inline_once_in_any_run Sample.session
           (with_plotlyjs_included true Sample.fresh)).
  reflexivity.
Defined.

(** ** Which arrays are encoded *)

(** X8: [add_image] on an array succeeds exactly when the array holds
    [uint8] elements in 2 or 3 dimensions and the PNG encoder accepts it; no
    array of another element type or shape gets to the encoder. *)
Theorem X8_array_accepted_iff (w : World) (a : ndarray) (ttl : option string)
    (h wd : option dim) (pix : bool) (d : Document) :
  fst (add_image w (VNdarray a) ttl h wd pix d) = inr tt
  <-> nd_dtype a = uint8
      /\ (ndim a = 2%nat \/ ndim a = 3%nat)
      /\ exists png, png_of_array w a = inr png.
Proof.
  unfold add_image, bind, lift. cbn [_encode_image].
  destruct (dtype_eqb (nd_dtype a) uint8) eqn:Hd; cbn [negb].
  - apply dtype_eqb_eq in Hd.
    destruct (Nat.eqb (ndim a) 2) eqn:H2; cbn [orb negb].
    + apply Nat.eqb_eq in H2.
      destruct (png_of_array w a) as [e|png]; cbn [fst].
      * split; [discriminate | intros (_ & _ & png & Hpng); discriminate].
      * rewrite add_image_tag_format. cbn [fst].
        split; [intros _ | reflexivity].
        split; [exact Hd | split; [now left | now exists png]].
    + apply Nat.eqb_neq in H2.
      destruct (Nat.eqb (ndim a) 3) eqn:H3; cbn [negb].
      * apply Nat.eqb_eq in H3.
        destruct (png_of_array w a) as [e|png]; cbn [fst].
        -- split; [discriminate | intros (_ & _ & png & Hpng); discriminate].
        -- rewrite add_image_tag_format. cbn [fst].
           split; [intros _ | reflexivity].
           split; [exact Hd | split; [now right | now exists png]].
      * apply Nat.eqb_neq in H3. cbn [fst].
        split; [discriminate | intros (_ & [H|H] & _); contradiction].
  - cbn [fst]. split; [discriminate|].
    intros (Heq & _). apply dtype_eqb_eq in Heq. congruence.
Qed.

(** ** Errors of the collaborators *)

(** X9: what a collaborator raises reaches the caller as it is, and the
    document is as it was: a file that cannot be read, by path or by string;
    an array or image the PNG encoder refuses; a table that does not render; a
    file that cannot be written; a style sheet that cannot be read, which also
    is the one way construction fails. *)
Theorem X9_collaborator_errors_surface (w : World) (d : Document) (e : exn) :
  (forall p ttl h wd pix,
     read_bytes w p = inl e ->
     add_image w (VPath p) ttl h wd pix d = (inl e, d)
     /\ add_image w (VStr p) ttl h wd pix d = (inl e, d))
  /\ (forall a ttl h wd pix,
        nd_dtype a = uint8 -> ndim a = 2%nat \/ ndim a = 3%nat ->
        png_of_array w a = inl e ->
        add_image w (VNdarray a) ttl h wd pix d = (inl e, d))
  /\ (forall i ttl h wd pix,
        png_of_image w i = inl e ->
        add_image w (VImage i) ttl h wd pix d = (inl e, d))
  /\ (forall df,
        df_to_html w df = inl e -> add_table w (VDataFrame df) d = (inl e, d))
  /\ (forall path,
        write_text w path (__str__ d) = inl e -> write w path d = (inl e, d))
  /\ (read_text w (style_filepath w) = inl e ->
      _set_default_style w d = (inl e, d)
      /\ forall class_name, __init__ class_name w = inl e).
Proof.
  split; [|split; [|split; [|split; [|split]]]].
  - intros p ttl h wd pix Hread.
    split; apply add_image_failure; cbn [_encode_image]; now rewrite Hread.
  - intros a ttl h wd pix Hd Hn Hpng. apply add_image_failure.
    cbn [_encode_image]. rewrite Hd, Hpng. cbn [dtype_eqb negb].
    destruct Hn as [-> | ->]; reflexivity.
  - intros i ttl h wd pix Hpng. apply add_image_failure.
    cbn [_encode_image]. now rewrite Hpng.
  - intros df Hhtml. cbn [add_table]. unfold bind, lift. now rewrite Hhtml.
  - intros path Hwrite. unfold write. unfold_monad. now rewrite Hwrite.
  - intros Hread. unfold __init__, _set_default_style. unfold_monad.
    rewrite Hread. split; [reflexivity | intros cls; reflexivity].
Qed.

Lemma X9_collaborator_errors_surface_witness :
  add_image Sample.world_no_files (VPath "missing.png") None None None false
    Sample.report
  = (inl (OSError "No such file or directory"), Sample.report)
  /\ add_image Sample.world_no_files (VStr "missing.png") None None None false
       Sample.report
     = (inl (OSError "No such file or directory"), Sample.report).
Proof.
  destruct (X9_collaborator_errors_surface Sample.world_no_files Sample.report
              (OSError "No such file or directory")) as (Hread & _).
  apply Hread. reflexivity.
Defined.

(** ** Construction *)

(** X12: construction succeeds exactly when the style sheet can be read,
    and then gives the name of the instance's class as title,
    ['HTMLDocument'] for the class itself, the sheet as style, an empty head,
    an empty body and the flag down; when the sheet cannot be read,
    construction raises what the read raised. *)
Theorem X12_constructed_document (class_name : string) (w : World) :
  (forall d,
     __init__ class_name w = inr d <->
     read_text w (style_filepath w) = inr (style d)
     /\ title d = class_name /\ head d = "" /\ body d = ""
     /\ _is_plotlyjs_included d = false)
  /\ (forall d, __init__ HTMLDocument_name w = inr d -> title d = "HTMLDocument")
  /\ (forall e,
        __init__ class_name w = inl e
        <-> read_text w (style_filepath w) = inl e).
Proof.
  unfold __init__, _set_default_style. unfold_monad.
  destruct (read_text w (style_filepath w)) as [e0|css]; cbn.
  - split; [|split].
    + intros d. split; [discriminate | intros (H & _); discriminate].
    + intros d. discriminate.
    + intros e. split; intros [= ->]; reflexivity.
  - split; [|split].
    + intros d. split.
      * intros [= <-]. now repeat split.
      * destruct d as [st ti he bo fl]. cbn.
        intros ([= ->] & -> & -> & -> & ->). reflexivity.
    + intros d [= <-]. reflexivity.
    + intros e. split; discriminate.
Qed.

(** A subclass named [Report] is titled by its own name. *)
Example subclass_title :
  option_map title
    (match __init__ "Report" Sample.world with
     | inr d => Some d
     | inl _ => None
     end)
  = Some "Report".
Proof. reflexivity. Qed.

(** ** Calls that only read *)

Lemma readonly_leaves_document (w : World) (c : call) (d : Document) :
  is_readonly c = true -> snd (run w c d) = d.
Proof.
  destruct c; try discriminate; intros _; cbn [run].
  - unfold write. unfold_monad. now destruct (write_text w filepath (__str__ d)).
  - reflexivity.
  - unfold_monad. now destruct (_encode_image w image).
Qed.

(** X13: [write], [__str__] and [_encode_image] leave the document as it
    is whether they return or raise, and [write] hands the file system the
    text [__str__] returns; so taking these calls out of a run changes
    nothing of the document the run ends with. *)
Theorem X13_readonly_calls_drop_out (steps : list (World * call))
    (d : Document) :
  run_all (drop_readonly steps) d = run_all steps d
  /\ (forall w path,
        write w path d = (write_text w path (__str__ d), d)).
Proof.
  split.
  - revert d. induction steps as [|[w c] rest IH]; intros d; [reflexivity|].
    unfold drop_readonly in *. cbn [filter snd run_all].
    destruct (is_readonly c) eqn:Hro; cbn [negb run_all].
    + rewrite (readonly_leaves_document w c d Hro). apply IH.
    + apply IH.
  - intros w path. reflexivity.
Qed.

(** ** The text of an embedded image *)

Lemma b64encode_chars_bounded (n : nat) (bs : list byte) :
  (List.length bs <= n)%nat ->
  string_forall Base64.is_b64_char (Base64.b64encode bs) = true.
Proof.
  revert bs. induction n as [|n IH]; intros bs Hlen.
  - destruct bs; [reflexivity | simpl in Hlen; lia].
  - destruct bs as [|a [|b [|c rest]]]; [reflexivity| | |].
    + pose proof (to_N_bounded a) as Ha.
      pose proof (Base64Facts.sextets3_bounds (to_N a) 0 0 Ha) as Hs.
      cbn [Base64.b64encode].
      destruct (Base64.sextets3 (to_N a) 0 0) as [[[s1 s2] s3] s4].
      destruct Hs as (H1 & H2 & _); [lia | lia |].
      cbn [Base64.chars fold_right string_forall].
      now rewrite (Base64Facts.is_b64_char_b64char s1 H1),
        (Base64Facts.is_b64_char_b64char s2 H2).
    + pose proof (to_N_bounded a) as Ha. pose proof (to_N_bounded b) as Hb.
      pose proof (Base64Facts.sextets3_bounds (to_N a) (to_N b) 0 Ha Hb) as Hs.
      cbn [Base64.b64encode].
      destruct (Base64.sextets3 (to_N a) (to_N b) 0) as [[[s1 s2] s3] s4].
      destruct Hs as (H1 & H2 & H3 & _); [lia |].
      cbn [Base64.chars fold_right string_forall].
      now rewrite (Base64Facts.is_b64_char_b64char s1 H1),
        (Base64Facts.is_b64_char_b64char s2 H2),
        (Base64Facts.is_b64_char_b64char s3 H3).
    + pose proof (to_N_bounded a) as Ha. pose proof (to_N_bounded b) as Hb.
      pose proof (to_N_bounded c) as Hc.
      pose proof (Base64Facts.sextets3_bounds (to_N a) (to_N b) (to_N c)
                    Ha Hb Hc) as Hs.
      cbn [Base64.b64encode].
      destruct (Base64.sextets3 (to_N a) (to_N b) (to_N c))
        as [[[s1 s2] s3] s4].
      destruct Hs as (H1 & H2 & H3 & H4).
      cbn [Base64.chars fold_right string_forall].
      rewrite (Base64Facts.is_b64_char_b64char s1 H1),
        (Base64Facts.is_b64_char_b64char s2 H2),
        (Base64Facts.is_b64_char_b64char s3 H3),
        (Base64Facts.is_b64_char_b64char s4 H4).
      cbn [andb]. apply IH. simpl in Hlen. lia.
Qed.

Lemma b64encode_length_bounded (n : nat) (bs : list byte) :
  (List.length bs <= n)%nat ->
  String.length (Base64.b64encode bs) = (4 * ((List.length bs + 2) / 3))%nat.
Proof.
  revert bs. induction n as [|n IH]; intros bs Hlen.
  - destruct bs; [reflexivity | simpl in Hlen; lia].
  - destruct bs as [|a [|b [|c rest]]]; [reflexivity| | |].
    + cbn [Base64.b64encode].
      destruct (Base64.sextets3 (to_N a) 0 0) as [[[s1 s2] s3] s4].
      reflexivity.
    + cbn [Base64.b64encode].
      destruct (Base64.sextets3 (to_N a) (to_N b) 0) as [[[s1 s2] s3] s4].
      reflexivity.
    + cbn [Base64.b64encode].
      destruct (Base64.sextets3 (to_N a) (to_N b) (to_N c))
        as [[[s1 s2] s3] s4].
      cbn [Base64.chars fold_right String.length List.length].
      rewrite IH by (simpl in Hlen; lia).
      replace (S (S (S (List.length rest))) + 2)%nat
        with (List.length rest + 2 + 1 * 3)%nat by lia.
      rewrite Nat.div_add by lia. lia.
Qed.

Lemma string_forall_weaken (p q : ascii -> bool) (s : string) :
  (forall c, p c = true -> q c = true) ->
  string_forall p s = true -> string_forall q s = true.
Proof.
  intros Hpq. induction s as [|c s IH]; [reflexivity|].
  cbn [string_forall]. intros H. apply andb_true_iff in H.
  destruct H as [Hc Hs]. now rewrite (Hpq c Hc), IH.
Qed.

Lemma b64_char_not_quote (c : ascii) :
  Base64.is_b64_char c = true -> not_quote c = true.
Proof.
  unfold not_quote. destruct (Ascii.eqb c "034") eqn:E; [|reflexivity].
  apply Ascii.eqb_eq in E. subst c. discriminate.
Qed.

(** X10: the text [_encode_image] returns holds only letters, digits,
    ['+'], ['/'] and ['='], so nothing in it can close the quotes of the [src]
    attribute [add_image] puts it in; it is four characters for every three
    bytes of the image, the last group padded. *)
Theorem X10_encoded_image_text (w : World) (image : value) (b64 : string) :
  _encode_image w image = inr b64 ->
  string_forall Base64.is_b64_char b64 = true
  /\ string_forall not_quote (code_src_prefix ++ b64) = true
  /\ exists bytes,
       image_bytes w image = inr bytes
       /\ String.length b64 = (4 * ((List.length bytes + 2) / 3))%nat.
Proof.
  rewrite encode_image_bytes.
  destruct (image_bytes w image) as [e|bytes]; [discriminate|].
  intros [= <-].
  assert (Hchars : string_forall Base64.is_b64_char (Base64.b64encode bytes)
                   = true)
    by (apply (b64encode_chars_bounded (List.length bytes)); lia).
  split; [exact Hchars | split].
  - unfold code_src_prefix. cbn [append string_forall].
    apply (string_forall_weaken _ _ _ b64_char_not_quote Hchars).
  - exists bytes. split; [reflexivity|].
    apply (b64encode_length_bounded (List.length bytes)). lia.
Qed.

Lemma X10_encoded_image_text_witness :
  string_forall Base64.is_b64_char "iVBORw0KGgo=" = true
  /\ string_forall not_quote (code_src_prefix ++ "iVBORw0KGgo=") = true
  /\ exists bytes,
       image_bytes Sample.world (VNdarray Sample.rgb_2x2) = inr bytes
       /\ String.length "iVBORw0KGgo="
          = (4 * ((List.length bytes + 2) / 3))%nat.
Proof.
  apply (X10_encoded_image_text Sample.world (VNdarray Sample.rgb_2x2)
           "iVBORw0KGgo=").
  reflexivity.
Defined.

(** ** Reading a field back from the rendering *)

Lemma string_length_append (a b : string) :
  String.length (a ++ b) = (String.length a + String.length b)%nat.
Proof.
  induction a as [|x a IH]; cbn; [reflexivity | now rewrite IH].
Qed.

Lemma append_cancel_l (a b c : string) : a ++ b = a ++ c -> b = c.
Proof.
  induction a as [|x a IH]; cbn [append]; intros H; [exact H|].
  injection H as H. now apply IH.
Qed.

Lemma append_cancel_r (a b c : string) : a ++ c = b ++ c -> a = b.
Proof.
  revert b. induction a as [|x a IH]; intros [|y b] H; cbn [append] in H.
  - reflexivity.
  - apply (f_equal String.length) in H. cbn in H.
    rewrite string_length_append in H. lia.
  - apply (f_equal String.length) in H. cbn in H.
    rewrite string_length_append in H. lia.
  - injection H as -> H. f_equal. now apply IH.
Qed.

(** X15: the rendering gives each field back when the other three are
    known: two documents that render alike and agree on three of title, style,
    head and body agree on the fourth. *)
Theorem X15_render_gives_field_back (d1 d2 : Document) :
  __str__ d1 = __str__ d2 ->
  (title d1 = title d2 -> style d1 = style d2 -> head d1 = head d2 ->
   body d1 = body d2)
  /\ (style d1 = style d2 -> head d1 = head d2 -> body d1 = body d2 ->
      title d1 = title d2)
  /\ (title d1 = title d2 -> head d1 = head d2 -> body d1 = body d2 ->
      style d1 = style d2)
  /\ (title d1 = title d2 -> style d1 = style d2 -> body d1 = body d2 ->
      head d1 = head d2).
Proof.
  unfold __str__. intros H.
  split; [|split; [|split]]; intros E1 E2 E3; rewrite E1, E2, E3 in H;
    repeat (apply append_cancel_l in H); now apply append_cancel_r in H.
Qed.

Lemma X15_render_gives_field_back_witness :
  (title Sample.report = title (with_plotlyjs_included true Sample.report) ->
   style Sample.report = style (with_plotlyjs_included true Sample.report) ->
   head Sample.report = head (with_plotlyjs_included true Sample.report) ->
   body Sample.report = body (with_plotlyjs_included true Sample.report))
  /\ (style Sample.report = style (with_plotlyjs_included true Sample.report) ->
      head Sample.report = head (with_plotlyjs_included true Sample.report) ->
      body Sample.report = body (with_plotlyjs_included true Sample.report) ->
      title Sample.report = title (with_plotlyjs_included true Sample.report))
  /\ (title Sample.report = title (with_plotlyjs_included true Sample.report) ->
      head Sample.report = head (with_plotlyjs_included true Sample.report) ->
      body Sample.report = body (with_plotlyjs_included true Sample.report) ->
      style Sample.report = style (with_plotlyjs_included true Sample.report))
  /\ (title Sample.report = title (with_plotlyjs_included true Sample.report) ->
      style Sample.report = style (with_plotlyjs_included true Sample.report) ->
      body Sample.report = body (with_plotlyjs_included true Sample.report) ->
      head Sample.report = head (with_plotlyjs_included true Sample.report)).
Proof.
  apply (X15_render_gives_field_back Sample.report
           (with_plotlyjs_included true Sample.report)).
  reflexivity.
Defined.

(** With two fields unknown the rendering does not tell them apart, since
    nothing is escaped: a title may hold the text that closes it. *)
Example render_is_not_injective :
  __str__
    (with_title "a"
       (with_style
          ("x</title>" ++ nl ++ "<style type=" ++ dq ++ "text/css" ++ dq ++ ">"
           ++ nl ++ "y") Sample.fresh))
  = __str__
      (with_title
         ("a</title>" ++ nl ++ "<style type=" ++ dq ++ "text/css" ++ dq ++ ">"
          ++ nl ++ "x") (with_style "y" Sample.fresh)).
Proof. reflexivity. Qed.

(** ** Setters and the body *)

Lemma run_all_ignores_title_style (steps : list (World * call))
    (d1 d2 : Document) :
  body d1 = body d2 ->
  _is_plotlyjs_included d1 = _is_plotlyjs_included d2 ->
  body (run_all steps d1) = body (run_all steps d2)
  /\ _is_plotlyjs_included (run_all steps d1)
     = _is_plotlyjs_included (run_all steps d2).
Proof.
  revert d1 d2. induction steps as [|[w c] rest IH]; intros d1 d2 Hb Hf.
  - now split.
  - cbn [run_all].
    destruct (run_ignores_title_style w c d1 d2 Hb Hf) as [Hb' Hf'].
    now apply IH.
Qed.

Lemma setter_keeps_body_flag (w : World) (c : call) (d : Document) :
  is_setter c = true ->
  body (snd (run w c d)) = body d
  /\ _is_plotlyjs_included (snd (run w c d)) = _is_plotlyjs_included d.
Proof.
  destruct c; try discriminate; intros _; cbn [run].
  - now split.
  - now split.
  - unfold _set_default_style. unfold_monad.
    now destruct (read_text w (style_filepath w)).
Qed.

(** X6: the body and the flag a run ends with are those of the run with
    every [set_title], [set_style] and [_set_default_style] taken out: the
    setters can come at any point of a run, or not at all, and the body is
    the same. *)
Theorem X6_setters_drop_out_of_body (steps : list (World * call))
    (d : Document) :
  body (run_all (drop_setters steps) d) = body (run_all steps d)
  /\ _is_plotlyjs_included (run_all (drop_setters steps) d)
     = _is_plotlyjs_included (run_all steps d).
Proof.
  revert d. induction steps as [|[w c] rest IH]; intros d; [now split|].
  unfold drop_setters in *. cbn [filter snd run_all].
  destruct (is_setter c) eqn:Hset; cbn [negb run_all].
  - destruct (setter_keeps_body_flag w c d Hset) as [Hb Hf].
    destruct (IH d) as [IHb IHf].
    destruct (run_all_ignores_title_style rest (snd (run w c d)) d Hb Hf)
      as [Hb' Hf'].
    split; congruence.
  - apply IH.
Qed.

Example session_without_setters :
  body (run_all (drop_setters Sample.session) Sample.fresh)
  = body (run_all Sample.session Sample.fresh)
  /\ List.length (drop_setters Sample.session) = 6%nat.
Proof. split; reflexivity. Qed.
